(** * Monthly sales dashboard: the enrichment routine and the summary metrics

    Shallow embedding of [enrich_df] and of the metric stage of the two
    dashboard scripts [0003.py] and [kurly_dash_2.py].

    A DataFrame is a finite map from column names to columns over a row
    count; a column is a list of cells.  pandas and numpy are libraries
    outside the repository: the operations the scripts call are modelled
    here on that data, one definition per operation, and the two scripts
    are written on top of them statement by statement.

    What is modelled and what is taken as given:
    - a cell of a numeric column (a float64 or an int64 value) is an
      extended rational: a rational, an infinity or NaN; tests on it
      ([isna], [!= 0], [<], [>=]) are exact;
    - a Python string is its list of Unicode code points;
    - the library functions whose results depend on the machine or on the
      version of the library are parameters of the development ([Lib]):
      [str()] of a cell that is no string, [str.strip], the number
      [pd.to_numeric] reads from a string, the timestamp [pd.to_datetime]
      reads from a string, the arithmetic of numpy on the cells of two
      numeric columns, and the sum and the mean of a column; what the
      proofs need of them is stated as [LibLaws];
    - the achievement rate of the last chart is computed in exact
      arithmetic. *)

From Stdlib Require Import QArith Qround.
From stdpp Require Import gmap strings list fin_maps sorting.

Open Scope Z_scope.

(** ** Numbers *)

(** The value of a cell of a numeric column. *)
Inductive fnum :=
| NaN
| Inf (neg : bool)
| Fin (q : Q).

Definition q_is_zero (q : Q) : bool := Qnum q =? 0.
Definition q_is_neg (q : Q) : bool := Qnum q <? 0.

(** Exact arithmetic, without rounding, overflow or wrap-around: that of
    the example library and of the achievement rate. *)
Definition fadd (a b : fnum) : fnum :=
  match a, b with
  | NaN, _ | _, NaN => NaN
  | Inf s, Inf t => if Bool.eqb s t then Inf s else NaN
  | Inf s, Fin _ => Inf s
  | Fin _, Inf t => Inf t
  | Fin p, Fin q => Fin (p + q)%Q
  end.

Definition fsub (a b : fnum) : fnum :=
  match a, b with
  | NaN, _ | _, NaN => NaN
  | Inf s, Inf t => if Bool.eqb s t then NaN else Inf s
  | Inf s, Fin _ => Inf s
  | Fin _, Inf t => Inf (negb t)
  | Fin p, Fin q => Fin (p - q)%Q
  end.

Definition fmul (a b : fnum) : fnum :=
  match a, b with
  | NaN, _ | _, NaN => NaN
  | Inf s, Inf t => Inf (xorb s t)
  | Inf s, Fin q | Fin q, Inf s =>
      if q_is_zero q then NaN else Inf (xorb s (q_is_neg q))
  | Fin p, Fin q => Fin (p * q)%Q
  end.

(** Division: [x / 0] is an infinity of the sign of [x], [0 / 0] is NaN,
    nothing is raised. *)
Definition fdiv (a b : fnum) : fnum :=
  match a, b with
  | NaN, _ | _, NaN => NaN
  | Inf _, Inf _ => NaN
  | Inf s, Fin q => Inf (xorb s (q_is_neg q))
  | Fin _, Inf _ => Fin 0
  | Fin p, Fin q =>
      if q_is_zero q then (if q_is_zero p then NaN else Inf (q_is_neg p))
      else Fin (p / q)%Q
  end.

Definition f_isnan (a : fnum) : bool :=
  match a with NaN => true | _ => false end.

(** [a != 0]: true for NaN and for the infinities. *)
Definition f_ne0 (a : fnum) : bool :=
  match a with Fin q => negb (q_is_zero q) | _ => true end.

(** [a < b]; false as soon as one side is NaN. *)
Definition f_ltb (a b : fnum) : bool :=
  match a, b with
  | NaN, _ | _, NaN => false
  | Inf s, Inf t => s && negb t
  | Inf s, Fin _ => s
  | Fin _, Inf t => negb t
  | Fin p, Fin q => match (p ?= q)%Q with Lt => true | _ => false end
  end.

Definition f100 : fnum := Fin 100.
Definition f0 : fnum := Fin 0.

(** ** Strings and dates *)

Definition pystr := list N.

(** The code points of an ASCII literal. *)
Fixpoint codepoints (s : string) : pystr :=
  match s with
  | EmptyString => []
  | String a s' => Ascii.N_of_ascii a :: codepoints s'
  end.

(** [str.isspace] of one code point: the characters Python's
    [str.strip()] removes. *)
Definition is_space (c : N) : bool :=
  ((9 <=? c) && (c <=? 13) || (28 <=? c) && (c <=? 32)
   || (c =? 133) || (c =? 160) || (c =? 5760)
   || (8192 <=? c) && (c <=? 8202)
   || (c =? 8232) || (c =? 8233) || (c =? 8239) || (c =? 8287)
   || (c =? 12288))%N.

Fixpoint lstrip (s : pystr) : pystr :=
  match s with
  | c :: s' => if is_space c then lstrip s' else s
  | [] => []
  end.

(** Python's [str.strip()]. *)
Definition py_strip (s : pystr) : pystr := rev (lstrip (rev (lstrip s))).

(** The blanks of ASCII: tab, line feed, vertical tab, form feed, carriage
    return and space. *)
Definition is_blank (c : N) : bool :=
  ((9 <=? c) && (c <=? 13) || (c =? 32))%N.

(** A parsed period: the first day of [month] of [year]. *)
Record ym := YM { year : Z; month : Z }.

Definition digit (c : N) : option Z :=
  if ((48 <=? c) && (c <=? 57))%N then Some (Z.of_N c - 48) else None.

Definition hyphen : N := 45%N.

Definition mk_date (y m : Z) : option ym :=
  if (1 <=? m) && (m <=? 12) then Some (YM y m) else None.

Definition year4 (a b c d : N) : option Z :=
  match digit a, digit b, digit c, digit d with
  | Some a, Some b, Some c, Some d => Some (1000 * a + 100 * b + 10 * c + d)
  | _, _, _, _ => None
  end.

(** A reading of the format [%Y-%m]: four digits of year, a hyphen, one
    or two digits of month from 1 to 12. *)
Definition unsigned_Ym (s : pystr) : option ym :=
  match s with
  | [a; b; c; d; sep; m1] =>
      if (sep =? hyphen)%N then
        match year4 a b c d, digit m1 with
        | Some y, Some m => mk_date y m
        | _, _ => None
        end
      else None
  | [a; b; c; d; sep; m1; m2] =>
      if (sep =? hyphen)%N then
        match year4 a b c d, digit m1, digit m2 with
        | Some y, Some m, Some m' => mk_date y (10 * m + m')
        | _, _, _ => None
        end
      else None
  | _ => None
  end.

(** The same with a minus sign before the year. *)
Definition strptime_Ym (s : pystr) : option ym :=
  match s with
  | c :: s' =>
      if (c =? hyphen)%N
      then (λ d, YM (- year d) (month d)) <$> unsigned_Ym s'
      else unsigned_Ym s
  | [] => None
  end.

(** The sort key of a date: months are ordered as their timestamps are. *)
Definition date_key (d : ym) : Z := 12 * year d + month d.

(** [Timestamp.quarter]. *)
Definition quarter_of (d : ym) : Z := (month d - 1) / 3 + 1.

(** ** Cells, columns, frames *)

Inductive value :=
| VStr (s : pystr)
| VNum (x : fnum)
| VDate (d : option ym).

Definition nan : value := VNum NaN.

Inductive exn :=
| KeyError (name : string)
| TypeError
| AttributeError
| ValueError
| OverflowError
| NameError.

Inductive result (A : Type) :=
| Ok (a : A)
| Raise (e : exn).
Arguments Ok {A} a.
Arguments Raise {A} e.

#[global] Instance result_ret : MRet result := λ A a, Ok a.
#[global] Instance result_bind : MBind result := λ A B k m,
  match m with Ok a => k a | Raise e => Raise e end.

Record frame := Frame {
  nrows : nat;
  columns : gmap string (list value)
}.

(** Every column of a DataFrame has one cell per row. *)
Definition rectangular (df : frame) : Prop :=
  map_Forall (λ _ xs, length xs = nrows df) (columns df).

(** [df[c]] *)
Definition getitem (df : frame) (c : string) : result (list value) :=
  match columns df !! c with
  | Some xs => Ok xs
  | None => Raise (KeyError c)
  end.

(** [df[c] = xs] *)
Definition setitem (df : frame) (c : string) (xs : list value) : frame :=
  Frame (nrows df) (<[c := xs]> (columns df)).

(** [df[c] = v] with a scalar [v] *)
Definition setitem_scalar (df : frame) (c : string) (v : value) : frame :=
  setitem df c (replicate (nrows df) v).

(** [c in df.columns] *)
Definition has_column (df : frame) (c : string) : bool :=
  bool_decide (is_Some (columns df !! c)).

(** ** The pandas operations the scripts call *)

(** [s.isna()] of one cell: NaN and NaT are missing. *)
Definition isna1 (v : value) : bool :=
  match v with
  | VNum NaN | VDate None => true
  | _ => false
  end.

(** What the development takes from Python, numpy and pandas as they are:
    - [py_str v]: [str(v)] of a cell that is neither a string nor missing;
    - [strip s]: [s.strip()];
    - [str_to_float s]: the number [pd.to_numeric(errors="coerce")] reads
      from the string [s], NaN when [s] is no number;
    - [strptime s]: the timestamp
      [pd.to_datetime(format="%Y-%m", errors="coerce")] reads from the
      string [s], none when it gives NaT;
    - [np_sub], [np_div], [np_mul]: [a - b], [a / b] and [a * b] on two
      cells of numeric columns, as numpy computes them for the dtypes of
      the columns (int64 wraps around, float64 rounds and overflows to an
      infinity, a division by zero raises nothing);
    - [np_nansum xs]: [np.nansum(xs)], which is also [xs.sum()] of pandas;
    - [np_mean xs]: [xs.mean()] of pandas. *)
Class Lib := {
  py_str : value → pystr;
  strip : pystr → pystr;
  str_to_float : pystr → fnum;
  strptime : pystr → option ym;
  np_sub : fnum → fnum → fnum;
  np_div : fnum → fnum → fnum;
  np_mul : fnum → fnum → fnum;
  np_nansum : list fnum → fnum;
  np_mean : list fnum → fnum
}.

Section Pandas.
Context `{!Lib}.

(** [s.astype(str)]: a missing cell stays missing. *)
Definition astype_str (xs : list value) : list value :=
  (λ v, match v with
        | VStr s => VStr s
        | _ => if isna1 v then nan else VStr (py_str v)
        end) <$> xs.

(** [s.str.strip()]: a cell that is not a string is NaN. *)
Definition str_strip (xs : list value) : list value :=
  (λ v, match v with VStr s => VStr (strip s) | _ => nan end) <$> xs.

(** One cell of [pd.to_datetime(s, format="%Y-%m", errors="coerce")]:
    a missing cell has no date. *)
Definition to_datetime1 (v : value) : option ym :=
  match v with
  | VStr s => strptime s
  | VNum _ => None
  | VDate d => d
  end.

Definition to_datetime (xs : list value) : list value :=
  (λ v, VDate (to_datetime1 v)) <$> xs.

(** One cell of [pd.to_numeric(s, errors="coerce")]. *)
Definition to_numeric1 (v : value) : fnum :=
  match v with
  | VNum x => x
  | VStr s => str_to_float s
  | VDate _ => NaN
  end.

Definition to_numeric (xs : list value) : list value :=
  (λ v, VNum (to_numeric1 v)) <$> xs.
End Pandas.

(** The key [sort_values] orders a datetime column by; [None] for NaT. *)
Definition sort_key (v : value) : option Z :=
  match v with
  | VDate (Some d) => Some (date_key d)
  | _ => None
  end.

Definition key_le (p q : Z * nat) : Prop := p.1 ≤ q.1.

#[global] Instance key_le_dec p q : Decision (key_le p q).
Proof. unfold key_le. apply _. Defined.

(** The positions of the non-null keys, each with its key. *)
Fixpoint non_nans (i : nat) (keys : list (option Z)) : list (Z * nat) :=
  match keys with
  | [] => []
  | Some k :: keys' => (k, i) :: non_nans (S i) keys'
  | None :: keys' => non_nans (S i) keys'
  end.

(** The positions of the null keys, in their order. *)
Fixpoint nan_idx (i : nat) (keys : list (option Z)) : list nat :=
  match keys with
  | [] => []
  | Some _ :: keys' => nan_idx (S i) keys'
  | None :: keys' => i :: nan_idx (S i) keys'
  end.

(** [nargsort(keys, ascending=True, na_position="last")]: the positions of
    the non-null keys in ascending order of key, then those of the nulls. *)
Definition nargsort (keys : list (option Z)) : list nat :=
  (snd <$> merge_sort key_le (non_nans 0 keys)) ++ nan_idx 0 keys.

(** [s.take(order)] *)
Definition take_rows (order : list nat) (xs : list value) : list value :=
  (λ i, default nan (xs !! i)) <$> order.

(** [df.sort_values(by)] *)
Definition sort_values (df : frame) (by_ : string) : result frame :=
  keys ← getitem df by_;
  let order := nargsort (sort_key <$> keys) in
  mret (Frame (nrows df) (take_rows order <$> columns df)).

(** [df.reset_index(drop=True)]: rows are addressed by position here, so
    the new index 0..n-1 is the position. *)
Definition reset_index (df : frame) : frame := df.

(** [df.copy()] *)
Definition copy (df : frame) : frame := df.

Definition isna (xs : list value) : list bool := isna1 <$> xs.

(** [s.ne(0)] *)
Definition ne0 (xs : list value) : list bool :=
  (λ v, match v with VNum x => f_ne0 x | _ => true end) <$> xs.

(** [m1 & m2] *)
Definition mask_and (m1 m2 : list bool) : list bool := zip_with andb m1 m2.

(** A Series of floats with its index labels. *)
Definition fseries := list (nat * fnum).

(** The rows of a column selected by a boolean mask, labelled by position,
    as floats; a cell that is no number raises when it meets arithmetic. *)
Fixpoint select (i : nat) (mask : list bool) (xs : list value)
  : result fseries :=
  match mask, xs with
  | b :: mask', v :: xs' =>
      rest ← select (S i) mask' xs';
      if b then
        match v with
        | VNum x => mret ((i, x) :: rest)
        | _ => Raise TypeError
        end
      else mret rest
  | _, _ => mret []
  end.

(** [df.loc[mask, c]] as an operand of arithmetic. *)
Definition loc_float (df : frame) (mask : list bool) (c : string)
  : result fseries :=
  xs ← getitem df c; select 0 mask xs.

(** The value a Series has at a label; NaN where the label is absent. *)
Fixpoint at_label (s : fseries) (i : nat) : fnum :=
  match s with
  | [] => NaN
  | (j, x) :: s' => if decide (i = j) then x else at_label s' i
  end.

(** [a op b] on two Series over the same index: label by label. *)
Definition series_op (op : fnum → fnum → fnum) (a b : fseries) : fseries :=
  (λ p, (p.1, op p.2 (at_label b p.1))) <$> a.

(** [a op k] with a scalar [k] *)
Definition series_scale (op : fnum → fnum → fnum) (a : fseries) (k : fnum)
  : fseries :=
  (λ p, (p.1, op p.2 k)) <$> a.

(** [df.loc[mask, c] = rhs] with a Series on the right: the Series is
    aligned on the labels of the selected rows. *)
Definition loc_setitem (df : frame) (mask : list bool) (c : string)
    (rhs : fseries) : frame :=
  let xs := default (replicate (nrows df) nan) (columns df !! c) in
  setitem df c
    (imap (λ i v, if default false (mask !! i)
                  then VNum (at_label rhs i) else v) xs).

(** [s.fillna(v)] *)
Definition fillna (xs : list value) (v : value) : list value :=
  (λ w, if isna1 w then v else w) <$> xs.

Definition quarter_cell (d : option ym) : value :=
  match d with
  | Some d => VNum (Fin (inject_Z (quarter_of d)))
  | None => nan
  end.

(** [s.dt.quarter]: the accessor exists on datetime columns only. *)
Fixpoint dt_quarter (xs : list value) : result (list value) :=
  match xs with
  | [] => mret []
  | VDate d :: xs' => qs ← dt_quarter xs'; mret (quarter_cell d :: qs)
  | _ :: _ => Raise AttributeError
  end.

(** ** DataFrame objects

    The scripts rebind the name [df] to fresh objects ([copy],
    [sort_values], [reset_index]) and update the object a name is bound to
    in place ([df[c] = ...], [df.loc[...] = ...]).  A heap holds the
    DataFrame objects; a reference is a position in it. *)

Definition ref := nat.
Abbreviation heap := (list frame).

(** A computation on the heap that returns or raises. *)
Definition M (A : Type) : Type := heap → result A * heap.

#[global] Instance M_ret : MRet M := λ A a h, (Ok a, h).
#[global] Instance M_bind : MBind M := λ A B k m h,
  match m h with
  | (Ok a, h') => k a h'
  | (Raise e, h') => (Raise e, h')
  end.

Definition lift {A} (r : result A) : M A := λ h, (r, h).

(** A new object. *)
Definition new (f : frame) : M ref := λ h, (Ok (length h), h ++ [f]).

(** The object a reference points to. *)
Definition deref (r : ref) : M frame := λ h,
  (match h !! r with Some f => Ok f | None => Raise NameError end, h).

(** In-place update of the object a reference points to. *)
Definition assign (r : ref) (f : frame) : M unit := λ h,
  (Ok (), <[r := f]> h).

Definition df_copy (df : ref) : M ref :=
  f ← deref df; new (copy f).

Definition df_getitem (df : ref) (c : string) : M (list value) :=
  f ← deref df; lift (getitem f c).

Definition df_setitem (df : ref) (c : string) (xs : list value) : M unit :=
  f ← deref df; assign df (setitem f c xs).

Definition df_setitem_scalar (df : ref) (c : string) (v : value) : M unit :=
  f ← deref df; assign df (setitem_scalar f c v).

Definition df_has_column (df : ref) (c : string) : M bool :=
  f ← deref df; mret (has_column f c).

Definition df_sort_values (df : ref) (by_ : string) : M ref :=
  f ← deref df; g ← lift (sort_values f by_); new g.

Definition df_reset_index (df : ref) : M ref :=
  f ← deref df; new (reset_index f).

Definition df_loc_float (df : ref) (mask : list bool) (c : string)
  : M fseries :=
  f ← deref df; lift (loc_float f mask c).

Definition df_loc_setitem (df : ref) (mask : list bool) (c : string)
    (rhs : fseries) : M unit :=
  f ← deref df; assign df (loc_setitem f mask c rhs).

(** [for c in cols: body] *)
Fixpoint for_each (cols : list string) (body : string → M unit) : M unit :=
  match cols with
  | [] => mret ()
  | c :: cols' => body c;; for_each cols' body
  end.

(** ** [enrich_df] of [0003.py] *)

Module Dash0003.
Section Script.
Context `{!Lib}.

Definition enrich_df (df : ref) : M ref :=
  df ← df_copy df;
  month ← df_getitem df "월";
  df_setitem df "월" (str_strip (astype_str month));;
  month ← df_getitem df "월";
  df_setitem df "_date" (to_datetime month);;
  df ← df_sort_values df "_date";
  df ← df_reset_index df;
  for_each ["매출액"; "전년동월"]
    (λ c : string,
       xs ← df_getitem df c; df_setitem df c (to_numeric xs));;
  has_pct ← df_has_column df "증감률";
  (if (has_pct : bool)
   then xs ← df_getitem df "증감률"; df_setitem df "증감률" (to_numeric xs)
   else df_setitem_scalar df "증감률" nan);;
  pct ← df_getitem df "증감률";
  let missing_mask := isna pct in
  prior ← df_getitem df "전년동월";
  let valid_mask := mask_and missing_mask (ne0 prior) in
  a ← df_loc_float df valid_mask "매출액";
  b ← df_loc_float df valid_mask "전년동월";
  c ← df_loc_float df valid_mask "전년동월";
  df_loc_setitem df valid_mask "증감률"
    (series_scale np_mul (series_op np_div (series_op np_sub a b) c) f100);;
  pct ← df_getitem df "증감률";
  df_setitem df "증감률" (fillna pct (VNum f0));;
  date ← df_getitem df "_date";
  quarter ← lift (dt_quarter date);
  df_setitem df "분기" quarter;;
  mret df.
End Script.
End Dash0003.

(** ** [enrich_df] of [kurly_dash_2.py] *)

Module KurlyDash2.
Section Script.
Context `{!Lib}.

Definition enrich_df (df : ref) : M ref :=
  df ← df_copy df;
  month ← df_getitem df "월";
  df_setitem df "월" (str_strip (astype_str month));;
  month ← df_getitem df "월";
  df_setitem df "_date" (to_datetime month);;
  df ← df_sort_values df "_date";
  df ← df_reset_index df;
  for_each ["매출액"; "전년동월"]
    (λ c : string,
       xs ← df_getitem df c; df_setitem df c (to_numeric xs));;
  has_pct ← df_has_column df "증감률";
  (if (has_pct : bool)
   then xs ← df_getitem df "증감률"; df_setitem df "증감률" (to_numeric xs)
   else df_setitem_scalar df "증감률" nan);;
  pct ← df_getitem df "증감률";
  let missing_mask := isna pct in
  a ← df_loc_float df missing_mask "매출액";
  b ← df_loc_float df missing_mask "전년동월";
  c ← df_loc_float df missing_mask "전년동월";
  prior ← df_getitem df "전년동월";
  df_loc_setitem df (mask_and missing_mask (ne0 prior)) "증감률"
    (series_scale np_mul (series_op np_div (series_op np_sub a b) c) f100);;
  pct ← df_getitem df "증감률";
  df_setitem df "증감률" (fillna pct (VNum f0));;
  date ← df_getitem df "_date";
  quarter ← lift (dt_quarter date);
  df_setitem df "분기" quarter;;
  mret df.
End Script.
End KurlyDash2.

(** The table an outcome of a call carries. *)
Definition returned (x : result ref * heap) : result frame :=
  match x with
  | (Ok r, h) => match h !! r with Some d => Ok d | None => Raise NameError end
  | (Raise e, _) => Raise e
  end.

(** The table a call returns, when the argument is the only object. *)
Definition call (f : ref → M ref) (df : frame) : result frame :=
  returned (f 0%nat [df]).

(** ** An example library

    An instance of [Lib] to run the scripts on example tables.  It is not
    numpy: its arithmetic is exact.  Its [strip] is Python's; [str()]
    prints a whole number in decimal digits and nothing for any other cell,
    the numbers read from strings are the unsigned decimal integers, and
    the dates read are those of [strptime_Ym].  The theorems hold for every
    library; this one serves the examples, whose numbers are small. *)
Fixpoint uint_of (acc : Z) (s : pystr) : option Z :=
  match s with
  | [] => Some acc
  | c :: s' =>
      match digit c with
      | Some d => uint_of (10 * acc + d) s'
      | None => None
      end
  end.

(** The decimal digits of a natural number, the last [fuel] of them. *)
Fixpoint digits_of (fuel : nat) (n : N) (acc : pystr) : pystr :=
  match fuel with
  | O => acc
  | S fuel' =>
      let acc' := (48 + n mod 10)%N :: acc in
      if (n / 10 =? 0)%N then acc' else digits_of fuel' (n / 10) acc'
  end.

Definition decimal (z : Z) : pystr :=
  let ds := digits_of (S (N.to_nat (N.log2 (Z.abs_N z)))) (Z.abs_N z) [] in
  if z <? 0 then hyphen :: ds else ds.

(** The sum of the cells that are not NaN, from left to right. *)
Definition exact_sum (xs : list fnum) : fnum :=
  foldl (λ acc x, if f_isnan x then acc else fadd acc x) f0 xs.

(** The number of cells that are not NaN. *)
Definition count (xs : list fnum) : Z :=
  Z.of_nat (length (filter (λ x, f_isnan x = false) xs)).

Definition exact_mean (xs : list fnum) : fnum :=
  fdiv (exact_sum xs) (Fin (inject_Z (count xs))).

Definition demo_lib : Lib := {|
  py_str := λ v,
    match v with
    | VNum (Fin q) =>
        if Qnum q mod Zpos (Qden q) =? 0
        then decimal (Qnum q / Zpos (Qden q)) else []
    | _ => []
    end;
  strip := py_strip;
  str_to_float := λ s,
    match s with
    | [] => NaN
    | _ => match uint_of 0 s with
           | Some z => Fin (inject_Z z)
           | None => NaN
           end
    end;
  strptime := strptime_Ym;
  np_sub := fsub;
  np_div := fdiv;
  np_mul := fmul;
  np_nansum := exact_sum;
  np_mean := exact_mean
|}.

(** ** The summary metrics *)

(** The floats of a numeric column; numpy and pandas raise on a column that
    holds anything else. *)
Fixpoint floats (xs : list value) : result (list fnum) :=
  match xs with
  | [] => mret []
  | VNum x :: xs' => ys ← floats xs'; mret (x :: ys)
  | _ :: _ => Raise TypeError
  end.

(** [np.nansum(xs)] and [s.sum()]: NaN counts as zero, so the sum of a
    column without a number is zero; otherwise the sum is numpy's. *)
Definition nansum `{!Lib} (xs : list fnum) : fnum :=
  if forallb f_isnan xs then f0 else np_nansum xs.

(** [int(x)] of a float. *)
Definition py_int (x : fnum) : result Z :=
  match x with
  | Fin q => Ok (Z.quot (Qnum q) (Zpos (Qden q)))
  | Inf _ => Raise OverflowError
  | NaN => Raise ValueError
  end.

(** [s.notna().any()] *)
Definition notna_any (xs : list fnum) : bool :=
  existsb (λ x, negb (f_isnan x)) xs.

(** numpy's [argmax] for an order [lt]: the first position of a best
    element, [best] being the best one so far and [i] the position of the
    head of [xs]. *)
Fixpoint argbest (lt : fnum → fnum → bool) (xs : list fnum) (i : nat)
    (best : nat * fnum) : nat :=
  match xs with
  | [] => best.1
  | x :: xs' =>
      if lt best.2 x then argbest lt xs' (S i) (i, x)
      else argbest lt xs' (S i) best
  end.

Definition fill_nan (v x : fnum) : fnum := if f_isnan x then v else x.

(** [nanargmax] and [nanargmin] of pandas: NaN cells are filled with the
    worst value before numpy looks for the best one; a column without a
    number has no answer.  (Before pandas 3 the answer of [idxmax] is then
    NaN and the lookup [df.loc[NaN, ...]] that follows raises; from pandas 3
    on [idxmax] raises itself.) *)
Definition nanarg (lt : fnum → fnum → bool) (worst : fnum) (xs : list fnum)
  : result nat :=
  if forallb f_isnan xs then Raise ValueError
  else match fill_nan worst <$> xs with
       | [] => Raise ValueError
       | x :: xs' => Ok (argbest lt xs' 1 (0%nat, x))
       end.

(** [s.idxmax()] and [s.idxmin()] on the index 0..n-1. *)
Definition idxmax (xs : list fnum) : result nat :=
  nanarg f_ltb (Inf true) xs.

Definition idxmin (xs : list fnum) : result nat :=
  nanarg (λ a b, f_ltb b a) (Inf false) xs.

(** [df.loc[i, c]] *)
Definition loc_cell (df : frame) (i : nat) (c : string) : result value :=
  xs ← getitem df c;
  match xs !! i with
  | Some v => Ok v
  | None => Raise (KeyError c)
  end.

(** What the four metric cards show; [None] is the card ["-"], otherwise
    the period label and the revenue of the row. *)
Record summary := Summary {
  total_sales : Z;
  avg_yoy : fnum;
  best_month : option (value * value);
  worst_month : option (value * value)
}.

(** The card of the row [idx]. *)
Definition card (df : frame) (idx : option nat)
  : result (option (value * value)) :=
  match idx with
  | Some i =>
      label ← loc_cell df i "월";
      amount ← loc_cell df i "매출액";
      mret (Some (label, amount))
  | None => mret None
  end.

(** What a page run ends in. *)
Inductive page :=
| ErrorMessage (e : exn)
| Traceback (e : exn)
| Dashboard (m : summary).

Module Page0003.
Section Script.
Context `{!Lib}.

Definition metrics (df : frame) : result summary :=
  revenue ← getitem df "매출액";
  revenue ← floats revenue;
  total_sales ← py_int (nansum revenue);
  pct ← getitem df "증감률";
  pct ← floats pct;
  let avg_yoy := np_mean pct in
  vals ← getitem df "매출액";
  vals ← floats vals;
  max_idx ← (if notna_any vals
             then i ← idxmax vals; mret (Some i) else mret None);
  min_idx ← (if notna_any vals
             then i ← idxmin vals; mret (Some i) else mret None);
  col3 ← card df max_idx;
  col4 ← card df min_idx;
  mret (Summary total_sales avg_yoy col3 col4).

(** The run of the page on an uploaded table: the [try] around
    [enrich_df] shows the error and stops; past it, the cards and then
    the charts are drawn. *)
Definition main (df_raw : frame) : page :=
  match call Dash0003.enrich_df df_raw with
  | Raise e => ErrorMessage e
  | Ok df =>
      match metrics df with
      | Ok m => Dashboard m
      | Raise e => Traceback e
      end
  end.
End Script.
End Page0003.

Module PageKurly.
Section Script.
Context `{!Lib}.

Definition metrics (df : frame) : result summary :=
  revenue ← getitem df "매출액";
  revenue ← floats revenue;
  total_sales ← py_int (nansum revenue);
  pct ← getitem df "증감률";
  pct ← floats pct;
  let avg_yoy := np_mean pct in
  vals ← getitem df "매출액";
  vals ← floats vals;
  max_idx ← idxmax vals;
  col3 ← card df (Some max_idx);
  vals ← getitem df "매출액";
  vals ← floats vals;
  min_idx ← idxmin vals;
  col4 ← card df (Some min_idx);
  mret (Summary total_sales avg_yoy col3 col4).

Definition main (df_raw : frame) : page :=
  match call KurlyDash2.enrich_df df_raw with
  | Raise e => ErrorMessage e
  | Ok df =>
      match metrics df with
      | Ok m => Dashboard m
      | Raise e => Traceback e
      end
  end.
End Script.
End PageKurly.

(** ** Vocabulary of the statements *)

(** The cell of column [c] in row [i]. *)
Definition cell (df : frame) (c : string) (i : nat) : option value :=
  columns df !! c ≫= (.!! i).

(** A float that is a number: anything but NaN. *)
Definition is_number (x : fnum) : Prop := x ≠ NaN.

(** [(revenue - prior) / prior * 100] *)
Definition yoy `{!Lib} (revenue prior : fnum) : fnum :=
  np_mul (np_div (np_sub revenue prior) prior) f100.

(** Calendar order of two months. *)
Definition ym_le (a b : ym) : Prop :=
  year a < year b ∨ (year a = year b ∧ month a ≤ month b).

(** A column of dates in ascending order with the nulls last. *)
Definition ascending_nulls_last (ds : list (option ym)) : Prop :=
  ∀ j1 j2 d1 d2, (j1 < j2)%nat → ds !! j1 = Some d1 → ds !! j2 = Some d2 →
    match d1, d2 with
    | Some a, Some b => ym_le a b
    | None, Some _ => False
    | _, None => True
    end.

(** A float that is no infinity. *)
Definition no_infinity (x : fnum) : Prop :=
  match x with Inf _ => False | _ => True end.

(** [i] is the first position of a greatest number of [xs]. *)
Definition first_max (xs : list fnum) (i : nat) : Prop :=
  ∃ x, xs !! i = Some x ∧ is_number x
     ∧ (∀ j y, xs !! j = Some y → is_number y → f_ltb x y = false)
     ∧ (∀ j y, (j < i)%nat → xs !! j = Some y → is_number y → f_ltb y x = true).

(** [i] is the first position of a least number of [xs]. *)
Definition first_min (xs : list fnum) (i : nat) : Prop :=
  ∃ x, xs !! i = Some x ∧ is_number x
     ∧ (∀ j y, xs !! j = Some y → is_number y → f_ltb y x = false)
     ∧ (∀ j y, (j < i)%nat → xs !! j = Some y → is_number y → f_ltb x y = true).

(** [select] on a column of floats. *)
Fixpoint selectf (i : nat) (mask : list bool) (xs : list fnum) : fseries :=
  match mask, xs with
  | b :: mask', x :: xs' =>
      if b then (i, x) :: selectf (S i) mask' xs' else selectf (S i) mask' xs'
  | _, _ => []
  end.

(** The first cell of a Series under a label. *)
Fixpoint label_lookup (s : fseries) (i : nat) : option fnum :=
  match s with
  | [] => None
  | (j, x) :: s' => if decide (i = j) then Some x else label_lookup s' i
  end.

(** A quarter cell as the specification words it: an integer from 1 to 4. *)
Definition is_quarter (v : value) : Prop :=
  ∃ q, v = VNum (Fin (inject_Z q)) ∧ 1 ≤ q ≤ 4.

(** The three columns [enrich_df] reads without a guard. *)
Definition has_required (df : frame) : Prop :=
  is_Some (columns df !! "월") ∧ is_Some (columns df !! "매출액")
  ∧ is_Some (columns df !! "전년동월").

Section Rows.
Context `{!Lib}.

(** The float [pd.to_numeric] reads in row [i] of column [c]; NaN when
    the table has no such column. *)
Definition num_cell (df : frame) (c : string) (i : nat) : fnum :=
  match cell df c i with
  | Some v => to_numeric1 v
  | None => NaN
  end.

(** The trimmed period label of row [i]; a missing label is missing. *)
Definition label_cell (df : frame) (i : nat) : option value :=
  match cell df "월" i with
  | Some v =>
      Some (match v with
            | VStr s => VStr (strip s)
            | _ => if isna1 v then nan else VStr (strip (py_str v))
            end)
  | None => None
  end.

(** The percent change the specification words for a row: the supplied
    value when it is a number, else the quotient when the prior-year
    revenue is a number other than zero, else zero. *)
Definition promised_pct (supplied revenue prior out : fnum) : Prop :=
  (is_number supplied → out = supplied)
  ∧ (¬ is_number supplied → is_number prior ∧ f_ne0 prior = true →
     out = yoy revenue prior)
  ∧ (¬ is_number supplied → ¬ (is_number prior ∧ f_ne0 prior = true) →
     out = f0).

(** The percent change [enrich_df] leaves in a row: as promised, but
    zero where the quotient is no number. *)
Definition backfilled_pct (supplied revenue prior out : fnum) : Prop :=
  (is_number supplied → out = supplied)
  ∧ (¬ is_number supplied → is_number prior ∧ f_ne0 prior = true →
     is_number (yoy revenue prior) → out = yoy revenue prior)
  ∧ (¬ is_number supplied → is_number prior ∧ f_ne0 prior = true →
     ¬ is_number (yoy revenue prior) → out = f0)
  ∧ (¬ is_number supplied → ¬ (is_number prior ∧ f_ne0 prior = true) →
     out = f0).

(** The percent change the backfill and [fillna(0)] leave in a row, from
    the three floats of the row ([backfill_column] below). *)
Definition row_pct (supplied revenue prior : fnum) : fnum :=
  fill_nan f0
    (if f_isnan supplied && f_ne0 prior then yoy revenue prior
     else supplied).

(** The table [enrich_df] returns, written column by column for a table
    whose columns 월, 매출액 and 전년동월 are [m], [r] and [p].  These are
    not the scripts: [exec_0003] and [exec_kurly] below prove that the
    scripts compute them. *)
Definition labels_of (m : list value) : list value :=
  str_strip (astype_str m).

Definition order_of (m : list value) : list nat :=
  nargsort (sort_key <$> to_datetime (labels_of m)).

(** The copy once its period column is trimmed and dated. *)
Definition dated (df : frame) (m : list value) : frame :=
  setitem (setitem df "월" (labels_of m)) "_date" (to_datetime (labels_of m)).

Definition sorted_columns (df : frame) (m : list value)
  : gmap string (list value) :=
  take_rows (order_of m) <$> columns (dated df m).

(** What [sort_values] returns. *)
Definition sorted (df : frame) (m : list value) : frame :=
  Frame (nrows df) (sorted_columns df m).

Definition supplied_column (df : frame) (m : list value) : list fnum :=
  match columns df !! "증감률" with
  | Some x => to_numeric1 <$> take_rows (order_of m) x
  | None => replicate (nrows df) NaN
  end.

Definition pct_column (X R P : list fnum) : list value :=
  zip_with (λ x rp, VNum (row_pct x rp.1 rp.2)) X (zip R P).

Definition enriched (df : frame) (m r p : list value) : frame :=
  let o := order_of m in
  let R := to_numeric1 <$> take_rows o r in
  let P := to_numeric1 <$> take_rows o p in
  let X := supplied_column df m in
  let Q := (λ v, quarter_cell (to_datetime1 v)) <$> take_rows o (labels_of m) in
  Frame (nrows df)
    (<["분기" := Q]>
       (<["증감률" := pct_column X R P]>
          (<["전년동월" := VNum <$> P]>
             (<["매출액" := VNum <$> R]> (sorted_columns df m))))).

(** The revenue floats, the labels and the percent changes of the table
    returned, as the metric stage reads them. *)
Definition revenue_floats (m r : list value) : list fnum :=
  to_numeric1 <$> take_rows (order_of m) r.

Definition sorted_labels (m : list value) : list value :=
  take_rows (order_of m) (labels_of m).

Definition pct_floats (df : frame) (m r p : list value) : list fnum :=
  zip_with (λ x rp, row_pct x rp.1 rp.2) (supplied_column df m)
    (zip (revenue_floats m r) (to_numeric1 <$> take_rows (order_of m) p)).

(** What a call of [enrich_df] on the table [df] comes to ([call_0003] and
    [call_kurly] below). *)
Definition expected (df : frame) : result frame :=
  match columns df !! "월", columns df !! "매출액", columns df !! "전년동월" with
  | Some m, Some r, Some p => Ok (enriched df m r p)
  | None, _, _ => Raise (KeyError "월")
  | Some _, None, _ => Raise (KeyError "매출액")
  | Some _, Some _, None => Raise (KeyError "전년동월")
  end.
End Rows.

(** The cards of the best and of the worst month show the first row with
    the greatest and the first row with the least revenue of [vals]. *)
Definition reports_extremes (d : frame) (vals : list fnum) (s : summary)
  : Prop :=
  ∃ i j li lj xi xj,
    first_max vals i ∧ first_min vals j
    ∧ vals !! i = Some xi ∧ vals !! j = Some xj
    ∧ cell d "월" i = Some li ∧ cell d "월" j = Some lj
    ∧ best_month s = Some (li, VNum xi)
    ∧ worst_month s = Some (lj, VNum xj).

(** ** Example tables *)

Definition text (s : string) : value := VStr (codepoints s).
Definition num (z : Z) : value := VNum (Fin (inject_Z z)).

(** Three months out of order; the percent change is supplied for one,
    to be derived for one, and has a zero denominator for one. *)
Definition three_months : frame :=
  Frame 3
    (<["월" := [text "2024-03"; text " 2024-01"; text "2024-02"]]>
    (<["매출액" := [num 11000000; num 12000000; num 13500000]]>
    (<["전년동월" := [num 0; num 10500000; num 11200000]]>
    (<["증감률" := [nan; VStr []; VNum (Fin (205 # 10))]]> ∅)))).

(** A month whose revenue is missing; no percent-change column. *)
Definition missing_revenue : frame :=
  Frame 1
    (<["월" := [text "2024-01"]]>
    (<["매출액" := [nan]]>
    (<["전년동월" := [num 10]]> ∅))).

(** Two rows whose labels are not of the form YYYY-MM. *)
Definition unparsed_labels : frame :=
  Frame 2
    (<["월" := [text "abc"; text "2024/01"]]>
    (<["매출액" := [num 100; num 70]]>
    (<["전년동월" := [num 50; num 70]]> ∅))).

(** The same month twice. *)
Definition repeated_month : frame :=
  Frame 2
    (<["월" := [text "2024-01"; text "2024-01"]]>
    (<["매출액" := [num 100; num 70]]>
    (<["전년동월" := [num 50; num 70]]> ∅))).

(** ** The charts and the preview

    What the rest of each page computes from the enriched table before it
    hands it to the plotting library: the bar colours of the second chart,
    the achievement rate of the fourth and the table of the preview. *)

(** [a >= b] on floats; false as soon as one side is NaN. *)
Definition f_geb (a b : fnum) : bool :=
  match a, b with
  | NaN, _ | _, NaN => false
  | _, _ => negb (f_ltb a b)
  end.

(** [[yes if v >= 0 else no for v in xs]] *)
Fixpoint by_sign (yes no : result string) (xs : list fnum)
  : result (list string) :=
  match xs with
  | [] => mret []
  | v :: xs' =>
      c ← (if f_geb v f0 then yes else no);
      cs ← by_sign yes no xs';
      mret (c :: cs)
  end.

Module Charts0003.
Definition PALETTE : gmap string string :=
  list_to_map
    [("primary", "#5E0081"); ("secondary", "#61007A"); ("deep", "#610D7C");
     ("accent", "#B386C3"); ("surface", "#F0E0F4"); ("on_dark", "#FFFFFF");
     ("on_light", "#000000")].

(** [PALETTE[key]] *)
Definition palette (key : string) : result string :=
  match PALETTE !! key with
  | Some c => Ok c
  | None => Raise (KeyError key)
  end.

(** [colors] of the chart of the percent change. *)
Definition colors (df : frame) : result (list string) :=
  pct ← getitem df "증감률";
  pct ← floats pct;
  by_sign (palette "primary") (palette "deep") pct.
End Charts0003.

Module ChartsKurly.
Definition COL_S1 : string := "#8B57A0".
Definition COL_S2 : string := "#AA73C3".

(** [bar_colors] of the chart of the percent change. *)
Definition bar_colors (df : frame) : result (list string) :=
  pct ← getitem df "증감률";
  pct ← floats pct;
  by_sign (Ok COL_S2) (Ok COL_S1) pct.
End ChartsKurly.



(** [df.drop(columns=cols)]: a label that is no column is a [KeyError]. *)
Definition drop_columns (df : frame) (cols : list string) : result frame :=
  match filter (λ c, columns df !! c = None) cols with
  | [] => Ok (Frame (nrows df) (foldr delete (columns df) cols))
  | c :: _ => Raise (KeyError c)
  end.

(** The table of the preview, [df.drop(columns=["_date"])], the same
    statement in both scripts. *)
Definition preview (df : frame) : result frame :=
  drop_columns df ["_date"].

(** The columns [enrich_df] writes. *)
Definition written : list string :=
  ["월"; "_date"; "매출액"; "전년동월"; "증감률"; "분기"].

(** A string without a blank at either end. *)
Definition trimmed (s : pystr) : Prop :=
  (∀ c, head s = Some c → is_blank c = false)
  ∧ (∀ c, last s = Some c → is_blank c = false).

(** What the proofs need of the library: [strip] leaves no blank at either
    end, the month of a timestamp is a month of the calendar, arithmetic on
    a missing value gives a missing value, and a sum that is finite has no
    infinite summand. *)
Class LibLaws `{!Lib} : Prop := {
  strip_trimmed : ∀ s, trimmed (strip s);
  strptime_month : ∀ s d, strptime s = Some d → 1 ≤ month d ≤ 12;
  np_sub_nan : ∀ a, np_sub a NaN = NaN;
  np_div_nan : ∀ b, np_div NaN b = NaN;
  np_mul_nan : ∀ b, np_mul NaN b = NaN;
  np_nansum_finite : ∀ xs q, np_nansum xs = Fin q → Forall no_infinity xs
}.

(** A cell as [pd.read_csv] leaves it in a column of text or of numbers:
    a string, a number or a missing value. *)
Definition is_text_or_number (v : value) : bool :=
  match v with
  | VStr _ | VNum _ => true
  | VDate _ => false
  end.

(** The columns [enrich_df] does arithmetic on are columns of text or of
    numbers: columns of booleans, whose difference numpy refuses with a
    [TypeError], and columns of dates are left out. *)
Definition text_or_numbers (df : frame) : Prop :=
  forallb
    (λ c, match columns df !! c with
          | Some xs => forallb is_text_or_number xs
          | None => true
          end)
    ["매출액"; "전년동월"; "증감률"] = true.

(** Three months with a column the scripts do not know. *)
Definition with_note : frame :=
  Frame 3
    (<["월" := [text "2024-03"; text "2024-01"; text "2024-02"]]>
    (<["매출액" := [num 30; nan; num 20]]>
    (<["전년동월" := [num 10; num 10; num 0]]>
    (<["비고" := [text "c"; text "a"; text "b"]]> ∅)))).

(** A table without the revenue column. *)
Definition no_revenue_column : frame :=
  Frame 1
    (<["월" := [text "2024-01"]]>
    (<["전년동월" := [num 10]]> ∅)).

(** Two rows of text with fields that do not parse: a label, a revenue, a
    prior-year revenue and two percent changes; one label is missing. *)
Definition unparseable_fields : frame :=
  Frame 2
    (<["월" := [text "2024-13"; nan]]>
    (<["매출액" := [text "15"; text "n/a"]]>
    (<["전년동월" := [text "10"; text "-"]]>
    (<["증감률" := [text "abc"; text "x"]]> ∅)))).

(** A month whose revenue is an infinity. *)
Definition infinite_revenue : frame :=
  Frame 2
    (<["월" := [text "2024-01"; text "2024-02"]]>
    (<["매출액" := [num 10; VNum (Inf false)]]>
    (<["전년동월" := [num 10; num 10]]> ∅))).

(** * Properties *)

(** ** Floats and dates *)

Lemma unsigned_month_range s d :
  unsigned_Ym s = Some d → 1 ≤ month d ≤ 12.
Proof.
  unfold unsigned_Ym, mk_date. intros Hs.
  repeat (case_match; simplify_eq; try discriminate); simpl; lia.
Qed.

Lemma strptime_month_range s d :
  strptime_Ym s = Some d → 1 ≤ month d ≤ 12.
Proof.
  unfold strptime_Ym. destruct s as [|c s]; [done|].
  destruct (c =? hyphen)%N; [|apply unsigned_month_range].
  intros (d' & Hd' & ->)%fmap_Some. simpl.
  by eapply unsigned_month_range.
Qed.

Lemma month_quarter m :
  1 ≤ m ≤ 12 →
  let q := (m - 1) / 3 + 1 in
  1 ≤ q ≤ 4 ∧ Qceiling (inject_Z m / 3) = q.
Proof.
  intros Hm.
  assert (m = 1 ∨ m = 2 ∨ m = 3 ∨ m = 4 ∨ m = 5 ∨ m = 6 ∨ m = 7 ∨ m = 8
          ∨ m = 9 ∨ m = 10 ∨ m = 11 ∨ m = 12) as Hc by lia.
  destruct Hc as [->|[->|[->|[->|[->|[->|[->|[->|[->|[->|[->| ->]]]]]]]]]]];
    vm_compute; intuition discriminate.
Qed.

(** ** The order [sort_values] puts the rows in *)

#[local] Instance key_le_trans : Transitive key_le.
Proof. unfold key_le. intros x y z. lia. Qed.

#[local] Instance key_le_total : Total key_le.
Proof. unfold key_le. intros x y. lia. Qed.

Lemma non_nans_nan_idx_perm i keys :
  (snd <$> non_nans i keys) ++ nan_idx i keys ≡ₚ seq i (length keys).
Proof.
  revert i. induction keys as [|[k|] keys IH]; intros i; simpl.
  - done.
  - by rewrite IH.
  - rewrite <- Permutation_middle. by rewrite IH.
Qed.

Lemma nargsort_perm keys : nargsort keys ≡ₚ seq 0 (length keys).
Proof.
  unfold nargsort. rewrite merge_sort_Permutation.
  apply non_nans_nan_idx_perm.
Qed.

Lemma nargsort_length keys : length (nargsort keys) = length keys.
Proof. by rewrite nargsort_perm, length_seq. Qed.

Lemma nargsort_in_range keys j i :
  nargsort keys !! j = Some i → (i < length keys)%nat.
Proof.
  intros Hj. apply list_elem_of_lookup_2 in Hj.
  rewrite nargsort_perm in Hj. apply elem_of_seq in Hj. lia.
Qed.

Lemma non_nans_key s keys k i :
  (k, i) ∈ non_nans s keys → (s ≤ i)%nat ∧ keys !! (i - s)%nat = Some (Some k).
Proof.
  revert s. induction keys as [|[k'|] keys IH]; intros s; simpl.
  - by intros ?%elem_of_nil.
  - intros [Heq|Hin]%elem_of_cons.
    + simplify_eq. split; [lia|]. by rewrite Nat.sub_diag.
    + apply IH in Hin as [Hle Hk]. split; [lia|].
      by replace (i - s)%nat with (S (i - S s)) by lia.
  - intros Hin. apply IH in Hin as [Hle Hk]. split; [lia|].
    by replace (i - s)%nat with (S (i - S s)) by lia.
Qed.

Lemma nan_idx_key s keys i :
  i ∈ nan_idx s keys → (s ≤ i)%nat ∧ keys !! (i - s)%nat = Some None.
Proof.
  revert s. induction keys as [|[k'|] keys IH]; intros s; simpl.
  - by intros ?%elem_of_nil.
  - intros Hin. apply IH in Hin as [Hle Hk]. split; [lia|].
    by replace (i - s)%nat with (S (i - S s)) by lia.
  - intros [Heq|Hin]%elem_of_cons.
    + simplify_eq. split; [lia|]. by rewrite Nat.sub_diag.
    + apply IH in Hin as [Hle Hk]. split; [lia|].
      by replace (i - s)%nat with (S (i - S s)) by lia.
Qed.

Lemma strongly_sorted_lookup {A} (R : relation A) l j1 j2 x y :
  StronglySorted R l → (j1 < j2)%nat →
  l !! j1 = Some x → l !! j2 = Some y → R x y.
Proof.
  intros Hs. revert j1 j2. induction Hs as [|a l Hs IH Hall]; intros j1 j2 Hlt.
  - by rewrite lookup_nil.
  - destruct j2 as [|j2]; [lia|]. destruct j1 as [|j1]; simpl.
    + intros [= ->] Hy. rewrite Forall_forall in Hall.
      apply Hall. by eapply list_elem_of_lookup_2.
    + apply IH. lia.
Qed.

(** What the order found by [nargsort] does to the keys: ascending, and a
    null key never before a key. *)
Lemma nargsort_sorted keys j1 j2 i1 i2 :
  (j1 < j2)%nat →
  nargsort keys !! j1 = Some i1 → nargsort keys !! j2 = Some i2 →
  ∃ k1 k2, keys !! i1 = Some k1 ∧ keys !! i2 = Some k2 ∧
    match k1, k2 with
    | Some a, Some b => a ≤ b
    | None, Some _ => False
    | _, None => True
    end.
Proof.
  intros Hlt. unfold nargsort.
  set (S := merge_sort key_le (non_nans 0 keys)).
  assert (∀ j p, S !! j = Some p → keys !! p.2 = Some (Some p.1)) as HS.
  { intros j [k i] Hj. apply list_elem_of_lookup_2 in Hj.
    unfold S in Hj. rewrite merge_sort_Permutation in Hj.
    apply non_nans_key in Hj as [_ Hk]. simpl.
    by replace (i - 0)%nat with i in Hk by lia. }
  assert (∀ j i, nan_idx 0 keys !! j = Some i → keys !! i = Some None) as HN.
  { intros j i Hj. apply list_elem_of_lookup_2 in Hj.
    apply nan_idx_key in Hj as [_ Hk].
    by replace (i - 0)%nat with i in Hk by lia. }
  rewrite !lookup_app, !list_lookup_fmap.
  destruct (S !! j2) as [[k2 i2']|] eqn:H2; simpl.
  - destruct (S !! j1) as [[k1 i1']|] eqn:H1; simpl.
    + intros [= <-] [= <-]. exists (Some k1), (Some k2).
      split; [apply (HS _ _ H1)|]. split; [apply (HS _ _ H2)|].
      apply (strongly_sorted_lookup key_le S j1 j2 (k1, i1') (k2, i2'));
        [apply StronglySorted_merge_sort; apply _|done..].
    + apply lookup_ge_None in H1. apply lookup_lt_Some in H2. lia.
  - intros H1 H2'. apply HN in H2'.
    destruct (S !! j1) as [[k1 i1']|] eqn:H1'; simpl in H1.
    + injection H1 as <-. exists (Some k1), None.
      split; [apply (HS _ _ H1')|]. done.
    + apply HN in H1. by exists None, None.
Qed.

Lemma take_rows_length o xs : length (take_rows o xs) = length o.
Proof. unfold take_rows. by rewrite length_fmap. Qed.

Lemma take_rows_lookup o xs j i x :
  o !! j = Some i → xs !! i = Some x → take_rows o xs !! j = Some x.
Proof.
  intros Hj Hi. unfold take_rows. rewrite list_lookup_fmap, Hj. simpl.
  by rewrite Hi.
Qed.

Lemma take_rows_seq xs : take_rows (seq 0 (length xs)) xs = xs.
Proof.
  apply list_eq. intros j. unfold take_rows. rewrite list_lookup_fmap.
  destruct (xs !! j) as [x|] eqn:Hx.
  - rewrite lookup_seq_lt by (by eapply lookup_lt_Some). simpl. by rewrite Hx.
  - rewrite lookup_seq_ge by (by apply lookup_ge_None). done.
Qed.

Lemma take_rows_perm o xs :
  o ≡ₚ seq 0 (length xs) → take_rows o xs ≡ₚ xs.
Proof.
  intros Ho. rewrite <- (take_rows_seq xs) at 2.
  unfold take_rows. by apply fmap_Permutation.
Qed.

(** Taking rows commutes with a cell-wise operation when every position
    exists. *)
Lemma take_rows_fmap (f : value → value) o xs :
  Forall (λ i, (i < length xs)%nat) o →
  take_rows o (f <$> xs) = f <$> take_rows o xs.
Proof.
  intros Ho. unfold take_rows. rewrite <- list_fmap_compose.
  apply Forall_fmap_ext_1. eapply Forall_impl; [exact Ho|].
  intros i Hi. simpl. rewrite list_lookup_fmap.
  destruct (lookup_lt_is_Some_2 xs i Hi) as [x ->]. done.
Qed.

(** ** Series, masks and the backfill of the percent change *)

Lemma select_floats i mask xs :
  select i mask (VNum <$> xs) = Ok (selectf i mask xs).
Proof.
  revert i xs. induction mask as [|b mask IH]; intros i [|x xs]; simpl; try done.
  rewrite IH. simpl. by destruct b.
Qed.

Lemma at_label_lookup s i : at_label s i = default NaN (label_lookup s i).
Proof.
  induction s as [|[j x] s IH]; simpl; [done|]. by case_decide.
Qed.

Lemma label_lookup_op op a b i :
  label_lookup (series_op op a b) i
  = (λ x, op x (at_label b i)) <$> label_lookup a i.
Proof.
  induction a as [|[j x] a IH]; simpl; [done|].
  case_decide; [by subst|done].
Qed.

Lemma label_lookup_scale op a k i :
  label_lookup (series_scale op a k) i = (λ x, op x k) <$> label_lookup a i.
Proof.
  induction a as [|[j x] a IH]; simpl; [done|]. by case_decide.
Qed.

Lemma label_lookup_selectf s mask xs i :
  label_lookup (selectf s mask xs) i
  = if decide (s ≤ i)%nat
    then (if default false (mask !! (i - s)%nat) then xs !! (i - s)%nat else None)
    else None.
Proof.
  revert s xs. induction mask as [|b mask IH]; intros s xs; simpl.
  - by repeat case_decide.
  - destruct xs as [|x xs].
    + case_decide; [|done]. by destruct (default false _).
    + destruct b; simpl; rewrite IH;
        destruct (decide (i = s)) as [->|Hne];
        repeat case_decide; try lia;
        rewrite ?Nat.sub_diag; try done;
        by replace (i - s)%nat with (S (i - S s)) by lia.
Qed.

(** The right-hand side of the backfill at a selected row. *)
Lemma backfill_rhs_at `{!Lib} sel R P i r p :
  sel !! i = Some true → R !! i = Some r → P !! i = Some p →
  at_label
    (series_scale np_mul
       (series_op np_div
          (series_op np_sub (selectf 0 sel R) (selectf 0 sel P))
          (selectf 0 sel P)) f100) i
  = yoy r p.
Proof.
  intros Hs HR HP.
  assert (∀ X x, X !! i = Some x →
            label_lookup (selectf 0 sel X) i = Some x) as Hsel.
  { intros X x HX. rewrite label_lookup_selectf.
    rewrite decide_True by lia. rewrite Nat.sub_0_r, Hs. done. }
  rewrite at_label_lookup, label_lookup_scale, !label_lookup_op.
  rewrite !at_label_lookup, (Hsel _ _ HR), (Hsel _ _ HP). done.
Qed.

Lemma isna_floats X : isna (VNum <$> X) = f_isnan <$> X.
Proof.
  unfold isna. rewrite <- list_fmap_compose. apply list_fmap_ext.
  by intros _ [] _.
Qed.

Lemma ne0_floats P : ne0 (VNum <$> P) = f_ne0 <$> P.
Proof. unfold ne0. by rewrite <- list_fmap_compose. Qed.

(** The column the backfill and [fillna(0)] leave, for any selection [sel]
    of operand rows that covers the rows assigned to. *)
Lemma backfill_column `{!Lib} sel X R P :
  length R = length X → length P = length X →
  let valid := mask_and (f_isnan <$> X) (f_ne0 <$> P) in
  (∀ i, valid !! i = Some true → sel !! i = Some true) →
  fillna
    (imap (λ i v, if default false (valid !! i)
                  then VNum (at_label
                    (series_scale np_mul
                       (series_op np_div
                          (series_op np_sub (selectf 0 sel R) (selectf 0 sel P))
                          (selectf 0 sel P)) f100) i)
                  else v) (VNum <$> X))
    (VNum f0)
  = pct_column X R P.
Proof.
  intros HR HP valid Hsel. apply list_eq. intros i.
  unfold fillna, pct_column.
  rewrite list_lookup_fmap, list_lookup_imap, list_lookup_fmap.
  rewrite lookup_zip_with, lookup_zip_with.
  destruct (X !! i) as [x|] eqn:HX; simpl; [|done].
  destruct (lookup_lt_is_Some_2 R i) as [r Hr];
    [rewrite HR; by eapply lookup_lt_Some|].
  destruct (lookup_lt_is_Some_2 P i) as [p Hp];
    [rewrite HP; by eapply lookup_lt_Some|].
  rewrite Hr, Hp. simpl.
  assert (valid !! i = Some (f_isnan x && f_ne0 p)) as Hv.
  { unfold valid, mask_and.
    rewrite lookup_zip_with, !list_lookup_fmap, HX, Hp. done. }
  rewrite Hv. simpl. unfold row_pct, fill_nan.
  destruct (f_isnan x && f_ne0 p) eqn:Hb.
  - rewrite (backfill_rhs_at sel R P i r p); [|apply Hsel; by rewrite Hv|done..].
    by destruct (yoy r p).
  - by destruct x.
Qed.

Lemma dt_quarter_dates `{!Lib} xs :
  dt_quarter (to_datetime xs)
  = Ok ((λ v, quarter_cell (to_datetime1 v)) <$> xs).
Proof.
  unfold to_datetime. induction xs as [|x xs IH]; [done|].
  rewrite !fmap_cons. cbn [dt_quarter]. rewrite IH. done.
Qed.

(** ** Steps of a script on the heap *)

Lemma M_bind_ok {A B} (m : M A) (k : A → M B) h a h' :
  m h = (Ok a, h') → (m ≫= k) h = k a h'.
Proof. intros Hm. unfold mbind, M_bind. by rewrite Hm. Qed.

Lemma M_bind_raise {A B} (m : M A) (k : A → M B) h e h' :
  m h = (Raise e, h') → (m ≫= k) h = (Raise e, h').
Proof. intros Hm. unfold mbind, M_bind. by rewrite Hm. Qed.

Lemma deref_last h0 f : deref (length h0) (h0 ++ [f]) = (Ok f, h0 ++ [f]).
Proof. unfold deref. by rewrite list_lookup_middle. Qed.

Lemma assign_last h0 f g :
  assign (length h0) g (h0 ++ [f]) = (Ok (), h0 ++ [g]).
Proof.
  unfold assign. rewrite insert_app_r_alt by lia.
  by rewrite Nat.sub_diag.
Qed.

Lemma df_copy_at h arg df :
  h !! arg = Some df → df_copy arg h = (Ok (length h), h ++ [df]).
Proof.
  intros Harg. unfold df_copy, mbind, M_bind, deref. by rewrite Harg.
Qed.

Lemma df_getitem_last h0 f c xs :
  columns f !! c = Some xs →
  df_getitem (length h0) c (h0 ++ [f]) = (Ok xs, h0 ++ [f]).
Proof.
  intros Hc. unfold df_getitem. rewrite (M_bind_ok _ _ _ _ _ (deref_last _ _)).
  unfold lift, getitem. by rewrite Hc.
Qed.

Lemma df_getitem_missing h0 f c :
  columns f !! c = None →
  df_getitem (length h0) c (h0 ++ [f]) = (Raise (KeyError c), h0 ++ [f]).
Proof.
  intros Hc. unfold df_getitem. rewrite (M_bind_ok _ _ _ _ _ (deref_last _ _)).
  unfold lift, getitem. by rewrite Hc.
Qed.

Lemma df_setitem_last h0 f c xs :
  df_setitem (length h0) c xs (h0 ++ [f]) = (Ok (), h0 ++ [setitem f c xs]).
Proof.
  unfold df_setitem. rewrite (M_bind_ok _ _ _ _ _ (deref_last _ _)).
  apply assign_last.
Qed.

Lemma df_setitem_scalar_last h0 f c v :
  df_setitem_scalar (length h0) c v (h0 ++ [f])
  = (Ok (), h0 ++ [setitem_scalar f c v]).
Proof.
  unfold df_setitem_scalar. rewrite (M_bind_ok _ _ _ _ _ (deref_last _ _)).
  apply assign_last.
Qed.

Lemma df_has_column_last h0 f c :
  df_has_column (length h0) c (h0 ++ [f]) = (Ok (has_column f c), h0 ++ [f]).
Proof.
  unfold df_has_column. by rewrite (M_bind_ok _ _ _ _ _ (deref_last _ _)).
Qed.

Lemma df_sort_values_last h0 f c keys :
  columns f !! c = Some keys →
  df_sort_values (length h0) c (h0 ++ [f])
  = (Ok (length (h0 ++ [f])),
     (h0 ++ [f]) ++
       [Frame (nrows f)
          (take_rows (nargsort (sort_key <$> keys)) <$> columns f)]).
Proof.
  intros Hc. unfold df_sort_values.
  rewrite (M_bind_ok _ _ _ _ _ (deref_last _ _)).
  unfold sort_values, getitem. rewrite Hc. done.
Qed.

Lemma df_reset_index_last h0 f :
  df_reset_index (length h0) (h0 ++ [f])
  = (Ok (length (h0 ++ [f])), (h0 ++ [f]) ++ [f]).
Proof.
  unfold df_reset_index. by rewrite (M_bind_ok _ _ _ _ _ (deref_last _ _)).
Qed.

Lemma df_loc_float_last h0 f mask c xs :
  columns f !! c = Some (VNum <$> xs) →
  df_loc_float (length h0) mask c (h0 ++ [f])
  = (Ok (selectf 0 mask xs), h0 ++ [f]).
Proof.
  intros Hc. unfold df_loc_float.
  rewrite (M_bind_ok _ _ _ _ _ (deref_last _ _)).
  unfold lift, loc_float, getitem. rewrite Hc. simpl.
  by rewrite select_floats.
Qed.

Lemma df_loc_setitem_last h0 f mask c rhs :
  df_loc_setitem (length h0) mask c rhs (h0 ++ [f])
  = (Ok (), h0 ++ [loc_setitem f mask c rhs]).
Proof.
  unfold df_loc_setitem. rewrite (M_bind_ok _ _ _ _ _ (deref_last _ _)).
  apply assign_last.
Qed.

Lemma to_numeric_floats `{!Lib} xs :
  to_numeric xs = VNum <$> (to_numeric1 <$> xs).
Proof. unfold to_numeric. by rewrite <- list_fmap_compose. Qed.

(** ** Running [enrich_df] *)

Lemma bind_eq {A B} (m : M A) (k : A → M B) h a h' res :
  m h = (Ok a, h') → k a h' = res → (m ≫= k) h = res.
Proof. intros Hm <-. by apply M_bind_ok. Qed.

Section Exec.
Context `{!Lib}.

Lemma sorted_columns_other df m c :
  c ≠ "월" → c ≠ "_date" →
  sorted_columns df m !! c = take_rows (order_of m) <$> columns df !! c.
Proof.
  intros H1 H2. unfold sorted_columns, dated. simpl.
  rewrite lookup_fmap, !lookup_insert_ne by done. done.
Qed.

Lemma sorted_columns_date df m :
  sorted_columns df m !! "_date"
  = Some (take_rows (order_of m) (to_datetime (labels_of m))).
Proof.
  unfold sorted_columns, dated. simpl.
  by rewrite lookup_fmap, lookup_insert_eq.
Qed.

Lemma sorted_columns_month df m :
  sorted_columns df m !! "월" = Some (take_rows (order_of m) (labels_of m)).
Proof.
  unfold sorted_columns, dated. simpl.
  rewrite lookup_fmap, lookup_insert_ne by done. by rewrite lookup_insert_eq.
Qed.


Lemma order_length m : length (order_of m) = length m.
Proof.
  unfold order_of, labels_of, to_datetime, str_strip, astype_str.
  by rewrite nargsort_length, !length_fmap.
Qed.

Lemma order_in_range m :
  Forall (λ i, (i < length (labels_of m))%nat) (order_of m).
Proof.
  apply Forall_lookup. intros j i Hj. apply nargsort_in_range in Hj.
  unfold to_datetime in Hj. by rewrite !length_fmap in Hj.
Qed.

Lemma supplied_length df m :
  rectangular df → columns df !! "월" = Some m →
  length (supplied_column df m) = length (order_of m).
Proof.
  intros Hrect Hm. unfold supplied_column. rewrite order_length.
  destruct (columns df !! "증감률") as [x|] eqn:Hx.
  - by rewrite length_fmap, take_rows_length, order_length.
  - rewrite length_replicate. symmetry. by apply Hrect in Hm.
Qed.

Lemma supplied_column_eq df m :
  match take_rows (order_of m) <$> columns df !! "증감률" with
  | Some xs => to_numeric1 <$> xs
  | None => replicate (nrows df) NaN
  end = supplied_column df m.
Proof. unfold supplied_column. by destruct (columns df !! "증감률"). Qed.

(** The statement that coerces the supplied percent change, or creates the
    column. *)
Lemma coerce_pct_step (h0 : heap) f :
  ((if has_column f "증감률"
    then xs ← df_getitem (length h0) "증감률";
         df_setitem (length h0) "증감률" (to_numeric xs)
    else df_setitem_scalar (length h0) "증감률" nan) : M ()) (h0 ++ [f])
  = (Ok (),
     h0 ++ [setitem f "증감률"
              (VNum <$> match columns f !! "증감률" with
                        | Some xs => to_numeric1 <$> xs
                        | None => replicate (nrows f) NaN
                        end)]).
Proof.
  unfold has_column. destruct (columns f !! "증감률") as [xs|] eqn:Hx.
  - rewrite bool_decide_eq_true_2 by eauto.
    eapply bind_eq; [by apply df_getitem_last|].
    rewrite df_setitem_last. by rewrite to_numeric_floats.
  - rewrite bool_decide_eq_false_2 by (by intros [? ?]).
    rewrite df_setitem_scalar_last. unfold setitem_scalar, nan.
    by rewrite fmap_replicate.
Qed.


Ltac exec_to_loop df m Harg Hm :=
  eapply bind_eq; [by apply df_copy_at|]; cbv beta;
  eapply bind_eq; [by apply df_getitem_last|]; cbv beta;
  eapply bind_eq; [apply df_setitem_last|]; cbv beta;
  eapply bind_eq; [apply df_getitem_last; simpl; apply lookup_insert_eq|];
  cbv beta;
  eapply bind_eq; [apply df_setitem_last|]; cbv beta;
  fold (labels_of m); fold (dated df m);
  eapply bind_eq; [apply df_sort_values_last; simpl; apply lookup_insert_eq|];
  cbv beta;
  fold (order_of m); fold (sorted_columns df m);
  change (nrows (dated df m)) with (nrows df); fold (sorted df m);
  eapply bind_eq; [apply df_reset_index_last|]; cbv beta;
  cbn [for_each].

Ltac exec_prefix df m Harg Hm Hr Hp :=
  exec_to_loop df m Harg Hm;
  eapply bind_eq;
  [ eapply bind_eq;
    [ eapply bind_eq; [apply df_getitem_last|apply df_setitem_last];
      simpl; rewrite sorted_columns_other, Hr by done; done |];
    eapply bind_eq;
    [ eapply bind_eq; [apply df_getitem_last|apply df_setitem_last];
      simpl; rewrite lookup_insert_ne by done;
      rewrite sorted_columns_other, Hp by done; done |];
    done |];
  cbv beta;
  eapply bind_eq; [apply df_has_column_last|]; cbv beta;
  eapply bind_eq; [apply coerce_pct_step|]; cbv beta;
  rewrite !to_numeric_floats;
  cbn [columns setitem nrows sorted];
  rewrite !(lookup_insert_ne _ _ "증감률") by done;
  rewrite (sorted_columns_other _ _ "증감률") by done;
  rewrite supplied_column_eq.

Ltac raise_month Harg Hm :=
  eapply bind_eq; [by apply df_copy_at|]; cbv beta;
  apply M_bind_raise; by apply df_getitem_missing.

Ltac raise_revenue h df m Harg Hm Hr :=
  exec_to_loop df m Harg Hm;
  apply M_bind_raise; apply M_bind_raise; apply M_bind_raise;
  replace (h ++ [dated df m; sorted df m; sorted df m])
    with (((h ++ [dated df m]) ++ [sorted df m]) ++ [sorted df m])
    by (by rewrite <- !app_assoc);
  apply df_getitem_missing; simpl;
  rewrite sorted_columns_other, Hr by done; done.

Ltac raise_prior h df m r Harg Hm Hr Hp :=
  exec_to_loop df m Harg Hm;
  apply M_bind_raise; eapply bind_eq;
  [ eapply bind_eq; [apply df_getitem_last|apply df_setitem_last];
    simpl; rewrite sorted_columns_other, Hr by done; done |];
  apply M_bind_raise; apply M_bind_raise;
  match goal with |- _ = (_, ?hh) =>
    replace hh with (((h ++ [dated df m]) ++ [sorted df m]) ++
      [setitem (sorted df m) "매출액" (to_numeric (take_rows (order_of m) r))])
    by (by rewrite <- !app_assoc) end;
  apply df_getitem_missing; simpl; rewrite lookup_insert_ne by done;
  rewrite sorted_columns_other, Hp by done; done.

Lemma exec_0003 h arg df m r p :
  h !! arg = Some df → rectangular df →
  columns df !! "월" = Some m → columns df !! "매출액" = Some r →
  columns df !! "전년동월" = Some p →
  Dash0003.enrich_df arg h
  = (Ok (length h + 2)%nat, h ++ [dated df m; sorted df m; enriched df m r p]).
Proof.
  intros Harg Hrect Hm Hr Hp. unfold Dash0003.enrich_df.
  exec_prefix df m Harg Hm Hr Hp.
  set (X := supplied_column df m).
  set (R := to_numeric1 <$> take_rows (order_of m) r).
  set (P := to_numeric1 <$> take_rows (order_of m) p).
  eapply bind_eq; [apply df_getitem_last; simpl; apply lookup_insert_eq|].
  cbv beta.
  eapply bind_eq;
    [apply df_getitem_last; simpl;
     rewrite lookup_insert_ne by done; apply lookup_insert_eq|].
  cbv beta. rewrite isna_floats, ne0_floats.
  eapply bind_eq;
    [apply df_loc_float_last; simpl;
     rewrite !lookup_insert_ne by done; apply lookup_insert_eq|].
  cbv beta.
  eapply bind_eq;
    [apply df_loc_float_last; simpl;
     rewrite lookup_insert_ne by done; apply lookup_insert_eq|].
  cbv beta.
  eapply bind_eq;
    [apply df_loc_float_last; simpl;
     rewrite lookup_insert_ne by done; apply lookup_insert_eq|].
  cbv beta.
  eapply bind_eq; [apply df_loc_setitem_last|]. cbv beta.
  unfold loc_setitem. cbn [columns setitem nrows].
  rewrite lookup_insert_eq. cbn [default].
  eapply bind_eq; [apply df_getitem_last; simpl; apply lookup_insert_eq|].
  cbv beta.
  assert (length R = length X ∧ length P = length X) as [HR HP].
  { unfold R, P, X. rewrite (supplied_length df m Hrect Hm).
    by rewrite !length_fmap, !take_rows_length. }
  rewrite (backfill_column _ X R P HR HP) by done.
  eapply bind_eq; [apply df_setitem_last|]. cbv beta.
  eapply bind_eq;
    [apply df_getitem_last; simpl;
     rewrite !lookup_insert_ne by done; apply sorted_columns_date|].
  cbv beta.
  unfold to_datetime at 1.
  rewrite (take_rows_fmap _ _ _ (order_in_range m)).
  fold (to_datetime (take_rows (order_of m) (labels_of m))).
  rewrite dt_quarter_dates.
  eapply bind_eq; [reflexivity|]. cbv beta.
  eapply bind_eq; [apply df_setitem_last|]. cbv beta.
  unfold mret, M_ret. f_equal.
  - f_equal. rewrite !length_app. simpl. lia.
  - rewrite <- !app_assoc. simpl. do 3 f_equal.
    unfold enriched, setitem. simpl. f_equal.
    rewrite !insert_insert_eq. done.
Qed.

Lemma mask_and_true m1 m2 i :
  mask_and m1 m2 !! i = Some true → m1 !! i = Some true.
Proof.
  unfold mask_and. rewrite lookup_zip_with.
  destruct (m1 !! i) as [[]|]; simpl; try done.
  by destruct (m2 !! i).
Qed.

Lemma exec_kurly h arg df m r p :
  h !! arg = Some df → rectangular df →
  columns df !! "월" = Some m → columns df !! "매출액" = Some r →
  columns df !! "전년동월" = Some p →
  KurlyDash2.enrich_df arg h
  = (Ok (length h + 2)%nat, h ++ [dated df m; sorted df m; enriched df m r p]).
Proof.
  intros Harg Hrect Hm Hr Hp. unfold KurlyDash2.enrich_df.
  exec_prefix df m Harg Hm Hr Hp.
  set (X := supplied_column df m).
  set (R := to_numeric1 <$> take_rows (order_of m) r).
  set (P := to_numeric1 <$> take_rows (order_of m) p).
  eapply bind_eq; [apply df_getitem_last; simpl; apply lookup_insert_eq|].
  cbv beta. rewrite isna_floats.
  eapply bind_eq;
    [apply df_loc_float_last; simpl;
     rewrite !lookup_insert_ne by done; apply lookup_insert_eq|].
  cbv beta.
  eapply bind_eq;
    [apply df_loc_float_last; simpl;
     rewrite lookup_insert_ne by done; apply lookup_insert_eq|].
  cbv beta.
  eapply bind_eq;
    [apply df_loc_float_last; simpl;
     rewrite lookup_insert_ne by done; apply lookup_insert_eq|].
  cbv beta.
  eapply bind_eq;
    [apply df_getitem_last; simpl;
     rewrite lookup_insert_ne by done; apply lookup_insert_eq|].
  cbv beta. rewrite ne0_floats.
  eapply bind_eq; [apply df_loc_setitem_last|]. cbv beta.
  unfold loc_setitem. cbn [columns setitem nrows].
  rewrite lookup_insert_eq. cbn [default].
  eapply bind_eq; [apply df_getitem_last; simpl; apply lookup_insert_eq|].
  cbv beta.
  assert (length R = length X ∧ length P = length X) as [HR HP].
  { unfold R, P, X. rewrite (supplied_length df m Hrect Hm).
    by rewrite !length_fmap, !take_rows_length. }
  rewrite (backfill_column _ X R P HR HP)
    by (intros i Hi; by apply mask_and_true in Hi).
  eapply bind_eq; [apply df_setitem_last|]. cbv beta.
  eapply bind_eq;
    [apply df_getitem_last; simpl;
     rewrite !lookup_insert_ne by done; apply sorted_columns_date|].
  cbv beta.
  unfold to_datetime at 1.
  rewrite (take_rows_fmap _ _ _ (order_in_range m)).
  fold (to_datetime (take_rows (order_of m) (labels_of m))).
  rewrite dt_quarter_dates.
  eapply bind_eq; [reflexivity|]. cbv beta.
  eapply bind_eq; [apply df_setitem_last|]. cbv beta.
  unfold mret, M_ret. f_equal.
  - f_equal. rewrite !length_app. simpl. lia.
  - rewrite <- !app_assoc. simpl. do 3 f_equal.
    unfold enriched, setitem. simpl. f_equal.
    rewrite !insert_insert_eq. done.
Qed.
Lemma raise_0003_month h arg df :
  h !! arg = Some df → columns df !! "월" = None →
  Dash0003.enrich_df arg h = (Raise (KeyError "월"), h ++ [df]).
Proof. intros Harg Hm. unfold Dash0003.enrich_df. raise_month Harg Hm. Qed.

Lemma raise_kurly_month h arg df :
  h !! arg = Some df → columns df !! "월" = None →
  KurlyDash2.enrich_df arg h = (Raise (KeyError "월"), h ++ [df]).
Proof. intros Harg Hm. unfold KurlyDash2.enrich_df. raise_month Harg Hm. Qed.

Lemma raise_0003_revenue h arg df m :
  h !! arg = Some df → columns df !! "월" = Some m →
  columns df !! "매출액" = None →
  Dash0003.enrich_df arg h
  = (Raise (KeyError "매출액"), h ++ [dated df m; sorted df m; sorted df m]).
Proof.
  intros Harg Hm Hr. unfold Dash0003.enrich_df.
  raise_revenue h df m Harg Hm Hr.
Qed.

Lemma raise_kurly_revenue h arg df m :
  h !! arg = Some df → columns df !! "월" = Some m →
  columns df !! "매출액" = None →
  KurlyDash2.enrich_df arg h
  = (Raise (KeyError "매출액"), h ++ [dated df m; sorted df m; sorted df m]).
Proof.
  intros Harg Hm Hr. unfold KurlyDash2.enrich_df.
  raise_revenue h df m Harg Hm Hr.
Qed.

Lemma raise_0003_prior h arg df m r :
  h !! arg = Some df → columns df !! "월" = Some m →
  columns df !! "매출액" = Some r → columns df !! "전년동월" = None →
  Dash0003.enrich_df arg h
  = (Raise (KeyError "전년동월"),
     h ++ [dated df m; sorted df m;
           setitem (sorted df m) "매출액"
             (to_numeric (take_rows (order_of m) r))]).
Proof.
  intros Harg Hm Hr Hp. unfold Dash0003.enrich_df.
  raise_prior h df m r Harg Hm Hr Hp.
Qed.

Lemma raise_kurly_prior h arg df m r :
  h !! arg = Some df → columns df !! "월" = Some m →
  columns df !! "매출액" = Some r → columns df !! "전년동월" = None →
  KurlyDash2.enrich_df arg h
  = (Raise (KeyError "전년동월"),
     h ++ [dated df m; sorted df m;
           setitem (sorted df m) "매출액"
             (to_numeric (take_rows (order_of m) r))]).
Proof.
  intros Harg Hm Hr Hp. unfold KurlyDash2.enrich_df.
  raise_prior h df m r Harg Hm Hr Hp.
Qed.

Lemma returned_last (h : heap) a b c :
  returned (Ok (length h + 2)%nat, h ++ [a; b; c]) = Ok c.
Proof.
  unfold returned.
  replace (h ++ [a; b; c]) with ((h ++ [a; b]) ++ [c])
    by (by rewrite <- app_assoc).
  rewrite list_lookup_middle; [done|]. rewrite length_app. simpl. lia.
Qed.

(** Every run of [enrich_df] of [0003.py] on a table [df] leaves the heap
    it started from in place, adds objects to it, and comes to
    [expected df]. *)
Lemma enrich_0003_run h arg df :
  h !! arg = Some df → rectangular df →
  ∃ new, (Dash0003.enrich_df arg h).2 = h ++ new
       ∧ returned (Dash0003.enrich_df arg h) = expected df.
Proof.
  intros Harg Hrect. unfold expected.
  destruct (columns df !! "월") as [m|] eqn:Hm;
    [|rewrite (raise_0003_month _ _ _ Harg Hm); by eexists].
  destruct (columns df !! "매출액") as [r|] eqn:Hr;
    [|rewrite (raise_0003_revenue _ _ _ _ Harg Hm Hr); by eexists].
  destruct (columns df !! "전년동월") as [p|] eqn:Hp;
    [|rewrite (raise_0003_prior _ _ _ _ _ Harg Hm Hr Hp); by eexists].
  rewrite (exec_0003 _ _ _ _ _ _ Harg Hrect Hm Hr Hp).
  eexists. split; [done|]. apply returned_last.
Qed.

Lemma enrich_kurly_run h arg df :
  h !! arg = Some df → rectangular df →
  ∃ new, (KurlyDash2.enrich_df arg h).2 = h ++ new
       ∧ returned (KurlyDash2.enrich_df arg h) = expected df.
Proof.
  intros Harg Hrect. unfold expected.
  destruct (columns df !! "월") as [m|] eqn:Hm;
    [|rewrite (raise_kurly_month _ _ _ Harg Hm); by eexists].
  destruct (columns df !! "매출액") as [r|] eqn:Hr;
    [|rewrite (raise_kurly_revenue _ _ _ _ Harg Hm Hr); by eexists].
  destruct (columns df !! "전년동월") as [p|] eqn:Hp;
    [|rewrite (raise_kurly_prior _ _ _ _ _ Harg Hm Hr Hp); by eexists].
  rewrite (exec_kurly _ _ _ _ _ _ Harg Hrect Hm Hr Hp).
  eexists. split; [done|]. apply returned_last.
Qed.

Lemma call_0003 df :
  rectangular df → call Dash0003.enrich_df df = expected df.
Proof.
  intros Hrect. unfold call.
  by destruct (enrich_0003_run [df] 0%nat df eq_refl Hrect) as (? & _ & ->).
Qed.

Lemma call_kurly df :
  rectangular df → call KurlyDash2.enrich_df df = expected df.
Proof.
  intros Hrect. unfold call.
  by destruct (enrich_kurly_run [df] 0%nat df eq_refl Hrect) as (? & _ & ->).
Qed.

End Exec.

(** ** The cells of the table [enrich_df] returns *)

Section Enriched.
Context `{!Lib}.
Variables (df : frame) (m r p : list value).
Hypothesis Hrect : rectangular df.
Hypothesis Hm : columns df !! "월" = Some m.
Hypothesis Hr : columns df !! "매출액" = Some r.
Hypothesis Hp : columns df !! "전년동월" = Some p.

Lemma order_perm : order_of m ≡ₚ seq 0 (nrows df).
Proof.
  unfold order_of. rewrite nargsort_perm.
  unfold to_datetime, labels_of, str_strip, astype_str.
  rewrite !length_fmap. by rewrite (Hrect _ _ Hm).
Qed.

Lemma order_lookup_lt j i : order_of m !! j = Some i → (i < nrows df)%nat.
Proof.
  intros Hj. apply list_elem_of_lookup_2 in Hj.
  rewrite order_perm in Hj. apply elem_of_seq in Hj. lia.
Qed.

Lemma order_lookup_some j : (j < nrows df)%nat → is_Some (order_of m !! j).
Proof.
  intros Hj. apply lookup_lt_is_Some.
  by rewrite order_length, (Hrect _ _ Hm).
Qed.

Lemma enriched_month :
  columns (enriched df m r p) !! "월"
  = Some (take_rows (order_of m) (labels_of m)).
Proof.
  unfold enriched. simpl. rewrite !lookup_insert_ne by done.
  apply sorted_columns_month.
Qed.

Lemma enriched_date :
  columns (enriched df m r p) !! "_date"
  = Some (to_datetime (take_rows (order_of m) (labels_of m))).
Proof.
  unfold enriched. simpl. rewrite !lookup_insert_ne by done.
  rewrite sorted_columns_date. unfold to_datetime.
  by rewrite (take_rows_fmap _ _ _ (order_in_range m)).
Qed.

Lemma enriched_quarter :
  columns (enriched df m r p) !! "분기"
  = Some ((λ v, quarter_cell (to_datetime1 v))
            <$> take_rows (order_of m) (labels_of m)).
Proof. unfold enriched. simpl. by rewrite lookup_insert_eq. Qed.

Lemma enriched_revenue :
  columns (enriched df m r p) !! "매출액"
  = Some (VNum <$> (to_numeric1 <$> take_rows (order_of m) r)).
Proof.
  unfold enriched. simpl. rewrite !lookup_insert_ne by done.
  by rewrite lookup_insert_eq.
Qed.

Lemma enriched_prior :
  columns (enriched df m r p) !! "전년동월"
  = Some (VNum <$> (to_numeric1 <$> take_rows (order_of m) p)).
Proof.
  unfold enriched. simpl. rewrite !lookup_insert_ne by done.
  by rewrite lookup_insert_eq.
Qed.

Lemma enriched_pct :
  columns (enriched df m r p) !! "증감률"
  = Some (pct_column (supplied_column df m)
            (to_numeric1 <$> take_rows (order_of m) r)
            (to_numeric1 <$> take_rows (order_of m) p)).
Proof.
  unfold enriched. simpl. rewrite lookup_insert_ne by done.
  by rewrite lookup_insert_eq.
Qed.

(** Row [j] of the result is row [i] of the argument. *)
Variables (j i : nat).
Hypothesis Hji : order_of m !! j = Some i.

Lemma sorted_num_lookup c xs :
  columns df !! c = Some xs →
  (to_numeric1 <$> take_rows (order_of m) xs) !! j = Some (num_cell df c i).
Proof.
  intros Hc. rewrite list_lookup_fmap. unfold take_rows.
  rewrite list_lookup_fmap, Hji. simpl.
  unfold num_cell, cell. rewrite Hc. simpl.
  destruct (lookup_lt_is_Some_2 xs i) as [v ->]; [|done].
  rewrite (Hrect _ _ Hc). by apply order_lookup_lt with j.
Qed.

Lemma supplied_lookup :
  supplied_column df m !! j = Some (num_cell df "증감률" i).
Proof.
  unfold supplied_column.
  destruct (columns df !! "증감률") as [x|] eqn:Hx.
  - by apply sorted_num_lookup.
  - unfold num_cell, cell. rewrite Hx. simpl.
    apply lookup_replicate_2. rewrite <- (Hrect _ _ Hm), <- order_length.
    by eapply lookup_lt_Some.
Qed.

Lemma row_label :
  cell (enriched df m r p) "월" j = label_cell df i.
Proof.
  unfold cell. rewrite enriched_month. simpl.
  unfold take_rows. rewrite list_lookup_fmap, Hji. simpl.
  unfold label_cell, cell. rewrite Hm. simpl.
  unfold labels_of, str_strip, astype_str.
  rewrite !list_lookup_fmap.
  destruct (lookup_lt_is_Some_2 m i) as [v ->].
  { rewrite (Hrect _ _ Hm). by apply order_lookup_lt with j. }
  simpl. by destruct v as [s|[| |]|[|]].
Qed.

Lemma row_date :
  cell (enriched df m r p) "_date" j
  = (λ v, VDate (to_datetime1 v)) <$> label_cell df i.
Proof.
  unfold cell. rewrite enriched_date. simpl.
  unfold to_datetime. rewrite list_lookup_fmap.
  pose proof row_label as Hl. unfold cell in Hl.
  rewrite enriched_month in Hl. simpl in Hl. by rewrite Hl.
Qed.

Lemma row_quarter :
  cell (enriched df m r p) "분기" j
  = (λ v, quarter_cell (to_datetime1 v)) <$> label_cell df i.
Proof.
  unfold cell. rewrite enriched_quarter. simpl.
  rewrite list_lookup_fmap.
  pose proof row_label as Hl. unfold cell in Hl.
  rewrite enriched_month in Hl. simpl in Hl. by rewrite Hl.
Qed.

Lemma row_revenue :
  cell (enriched df m r p) "매출액" j = Some (VNum (num_cell df "매출액" i)).
Proof.
  unfold cell. rewrite enriched_revenue. simpl.
  by rewrite list_lookup_fmap, (sorted_num_lookup _ _ Hr).
Qed.

Lemma row_prior :
  cell (enriched df m r p) "전년동월" j = Some (VNum (num_cell df "전년동월" i)).
Proof.
  unfold cell. rewrite enriched_prior. simpl.
  by rewrite list_lookup_fmap, (sorted_num_lookup _ _ Hp).
Qed.

Lemma row_percent :
  cell (enriched df m r p) "증감률" j
  = Some (VNum (row_pct (num_cell df "증감률" i) (num_cell df "매출액" i)
                  (num_cell df "전년동월" i))).
Proof.
  unfold cell. rewrite enriched_pct. simpl. unfold pct_column.
  rewrite lookup_zip_with, supplied_lookup. simpl.
  rewrite lookup_zip_with.
  by rewrite (sorted_num_lookup _ _ Hr), (sorted_num_lookup _ _ Hp).
Qed.
End Enriched.

(** ** The order of floats and the first best position *)

Lemma f_ltb_fin p q : f_ltb (Fin p) (Fin q) = true ↔ (p < q)%Q.
Proof.
  simpl. rewrite Qlt_alt. destruct (p ?= q)%Q; split; congruence.
Qed.

Lemma f_ltb_fin_false p q : f_ltb (Fin p) (Fin q) = false ↔ (q <= p)%Q.
Proof.
  rewrite <- not_true_iff_false, f_ltb_fin. split.
  - apply Qnot_lt_le.
  - intros Hle Hlt. by apply (Qlt_not_le _ _ Hlt).
Qed.

Lemma f_ltb_irrefl a : f_ltb a a = false.
Proof.
  destruct a as [|s|q]; [done|by destruct s|].
  apply f_ltb_fin_false. apply Qle_refl.
Qed.

Lemma f_ltb_trans a b c :
  f_ltb a b = true → f_ltb b c = true → f_ltb a c = true.
Proof.
  destruct a as [|s|p], b as [|t|q], c as [|u|w]; try done;
    repeat match goal with s : bool |- _ => destruct s end; try done.
  rewrite !f_ltb_fin. apply Qlt_trans.
Qed.

(** [y <= b < x] gives [y < x]. *)
Lemma f_le_lt_trans b x y :
  is_number y → f_ltb b y = false → f_ltb b x = true → f_ltb y x = true.
Proof.
  unfold is_number.
  destruct b as [|t|q], x as [|u|w], y as [|s|p]; try done;
    repeat match goal with s : bool |- _ => destruct s end; try done.
  rewrite f_ltb_fin_false, !f_ltb_fin. intros _. apply Qle_lt_trans.
Qed.

(** [x < b <= y] gives [x < y]. *)
Lemma f_lt_le_trans b x y :
  is_number y → f_ltb y b = false → f_ltb x b = true → f_ltb x y = true.
Proof.
  unfold is_number.
  destruct b as [|t|q], x as [|u|w], y as [|s|p]; try done;
    repeat match goal with s : bool |- _ => destruct s end; try done.
  rewrite f_ltb_fin_false, !f_ltb_fin. intros _ H1 H2.
  by apply Qlt_le_trans with q.
Qed.

Section ArgBest.
Variable lt : fnum → fnum → bool.
Hypothesis lt_irrefl : ∀ a, lt a a = false.
Hypothesis lt_trans :
  ∀ a b c, lt a b = true → lt b c = true → lt a c = true.
Hypothesis le_lt :
  ∀ b x y, is_number y → lt b y = false → lt b x = true → lt y x = true.

(** [argbest] keeps the first position of a best element: [pre] is what
    has been seen, [xs] what is left. *)
Lemma argbest_first pre xs b bv :
  Forall is_number pre → Forall is_number xs →
  pre !! b = Some bv →
  (∀ j y, pre !! j = Some y → lt bv y = false) →
  (∀ j y, (j < b)%nat → pre !! j = Some y → lt y bv = true) →
  let k := argbest lt xs (length pre) (b, bv) in
  ∃ x, (pre ++ xs) !! k = Some x
     ∧ (∀ j y, (pre ++ xs) !! j = Some y → lt x y = false)
     ∧ (∀ j y, (j < k)%nat → (pre ++ xs) !! j = Some y → lt y x = true).
Proof.
  intros Hok Hxs. revert pre b bv Hok.
  induction Hxs as [|x xs Hnx Hxs IH]; intros pre b bv Hok Hb Hall Hfirst.
  - simpl. rewrite app_nil_r. exists bv. naive_solver.
  - simpl. replace (pre ++ x :: xs) with ((pre ++ [x]) ++ xs)
      by (by rewrite <- app_assoc).
    replace (S (length pre)) with (length (pre ++ [x]))
      by (rewrite length_app; simpl; lia).
    pose proof (lookup_lt_Some _ _ _ Hb) as Hblt.
    assert (Forall is_number (pre ++ [x])) as Hok'.
    { apply Forall_app. by split; [|constructor]. }
    destruct (lt bv x) eqn:Hx.
    + apply IH; [done|by apply list_lookup_middle|..].
      * intros j y Hj. apply lookup_app_Some in Hj as [Hj|[_ Hj]].
        -- destruct (lt x y) eqn:Hxy; [|done].
           pose proof (Hall _ _ Hj) as Hy.
           by rewrite (lt_trans _ _ _ Hx Hxy) in Hy.
        -- apply list_lookup_singleton_Some in Hj as [_ <-].
           apply lt_irrefl.
      * intros j y Hlt Hj. rewrite lookup_app_l in Hj by done.
        apply (le_lt bv); [|by eapply Hall|done].
        exact (Forall_lookup_1 _ _ _ _ Hok Hj).
    + apply IH; [done|by rewrite lookup_app_l|..].
      * intros j y Hj. apply lookup_app_Some in Hj as [Hj|[_ Hj]].
        -- by eapply Hall.
        -- by apply list_lookup_singleton_Some in Hj as [_ <-].
      * intros j y Hlt Hj. rewrite lookup_app_l in Hj by lia.
        by eapply Hfirst.
Qed.

Variable worst : fnum.
Hypothesis worst_number : is_number worst.
Hypothesis worst_below : ∀ q, lt worst (Fin q) = true.

Lemma nanarg_first xs :
  Forall no_infinity xs →
  (∃ i y, xs !! i = Some y ∧ is_number y) →
  ∃ k x, nanarg lt worst xs = Ok k ∧ xs !! k = Some x ∧ is_number x
       ∧ (∀ j y, xs !! j = Some y → is_number y → lt x y = false)
       ∧ (∀ j y, (j < k)%nat → xs !! j = Some y → is_number y →
            lt y x = true).
Proof.
  intros Hfin (i0 & y0 & Hi0 & Hy0). unfold nanarg.
  assert (forallb f_isnan xs = false) as ->.
  { apply not_true_iff_false. intros Hall.
    rewrite forallb_forall in Hall.
    apply list_elem_of_lookup_2, list_elem_of_In, Hall in Hi0.
    by destruct y0. }
  set (zs := fill_nan worst <$> xs).
  assert (Forall is_number zs) as Hzs.
  { apply Forall_fmap, Forall_forall. intros x _. unfold fill_nan.
    by destruct x. }
  assert (∀ j y, xs !! j = Some y → is_number y → zs !! j = Some y) as Hz.
  { intros j y Hj Hy. unfold zs. rewrite list_lookup_fmap, Hj. simpl.
    unfold fill_nan. by destruct y. }
  destruct zs as [|z0 zs'] eqn:Hzs0.
  { apply Hz in Hi0; [|done]. by rewrite lookup_nil in Hi0. }
  apply Forall_cons in Hzs as [Hz0 Hzs'].
  destruct (argbest_first [z0] zs' 0%nat z0) as (x & Hk & Hmax & Hfirst);
    [by constructor|done|done|..].
  { intros j y Hj. apply list_lookup_singleton_Some in Hj as [_ <-].
    apply lt_irrefl. }
  { intros j y Hj. lia. }
  simpl in Hk, Hmax, Hfirst.
  set (k := argbest lt zs' 1 (0%nat, z0)) in *.
  exists k. rewrite <- Hzs0 in Hk. unfold zs in Hk.
  rewrite list_lookup_fmap in Hk.
  destruct (xs !! k) as [xr|] eqn:Hxr; [|done]. simpl in Hk.
  injection Hk as Hx. exists xr.
  assert (is_number xr) as Hnum.
  { intros ->. simpl in Hx. subst x.
    pose proof (Hmax _ _ (Hz _ _ Hi0 Hy0)) as Hbad.
    pose proof (Forall_lookup_1 _ _ _ _ Hfin Hi0) as Hf0.
    destruct y0 as [| |q]; try done. by rewrite worst_below in Hbad. }
  assert (x = xr) as -> by (unfold fill_nan in Hx; by destruct xr).
  repeat split; try done.
  - intros j y Hj Hy. by apply (Hmax j), Hz.
  - intros j y Hlt Hj Hy. by apply (Hfirst j), Hz.
Qed.
End ArgBest.

Lemma idxmax_first_max xs :
  Forall no_infinity xs → (∃ i y, xs !! i = Some y ∧ is_number y) →
  ∃ k, idxmax xs = Ok k ∧ first_max xs k.
Proof.
  intros Hfin Hnum.
  destruct (nanarg_first f_ltb f_ltb_irrefl f_ltb_trans f_le_lt_trans
              (Inf true)) with (xs := xs) as (k & x & Hk & Hrest);
    [done|done|done|done|].
  exists k. split; [done|]. by exists x.
Qed.

Lemma idxmin_first_min xs :
  Forall no_infinity xs → (∃ i y, xs !! i = Some y ∧ is_number y) →
  ∃ k, idxmin xs = Ok k ∧ first_min xs k.
Proof.
  intros Hfin Hnum.
  destruct (nanarg_first (λ a b, f_ltb b a)) with (worst := Inf false)
    (xs := xs) as (k & x & Hk & Hrest); try done.
  - apply f_ltb_irrefl.
  - intros a b c H1 H2. by apply f_ltb_trans with b.
  - intros b x y Hy H1 H2. by apply f_lt_le_trans with b.
  - exists k. split; [done|]. by exists x.
Qed.

(** ** Sums *)

Lemma nansum_stuck ys acc :
  (∀ q, acc ≠ Fin q) →
  ∀ q, foldl (λ acc x, if f_isnan x then acc else fadd acc x) acc ys ≠ Fin q.
Proof.
  revert acc. induction ys as [|y ys IH]; intros acc Hacc q; simpl; [done|].
  apply IH. intros q'.
  destruct y as [|t|w], acc as [|s|a]; simpl; try done.
  - by destruct (Bool.eqb s t).
  - by destruct (Hacc a).
Qed.

Lemma nansum_acc_fin a xs :
  (∃ q, foldl (λ acc x, if f_isnan x then acc else fadd acc x) (Fin a) xs
        = Fin q)
  ↔ Forall no_infinity xs.
Proof.
  revert a. induction xs as [|x xs IH]; intros a; simpl.
  - split; [by constructor|by eexists].
  - destruct x as [|s|q]; simpl.
    + rewrite IH. split; [by constructor|by inversion 1].
    + split; [|by inversion 1]. intros [q Hq]. exfalso.
      by apply nansum_stuck in Hq.
    + rewrite IH. split; [by constructor|by inversion 1].
Qed.

Lemma exact_sum_fin xs :
  (∃ q, exact_sum xs = Fin q) ↔ Forall no_infinity xs.
Proof. apply nansum_acc_fin. Qed.

Lemma notna_any_false xs : Forall (λ x, x = NaN) xs → notna_any xs = false.
Proof. induction 1 as [|x xs -> _ IH]; simpl; [done|apply IH]. Qed.

Lemma notna_any_true xs :
  (∃ i y, xs !! i = Some y ∧ is_number y) → notna_any xs = true.
Proof.
  intros (i & y & Hi & Hy). unfold notna_any. apply existsb_exists.
  exists y. split; [by eapply list_elem_of_In, list_elem_of_lookup_2|].
  by destruct y.
Qed.

Lemma forallb_isnan_all xs :
  Forall (λ x, x = NaN) xs → forallb f_isnan xs = true.
Proof. induction 1 as [|x xs -> _ IH]; simpl; [done|apply IH]. Qed.

Lemma nansum_all_nan `{!Lib} xs :
  Forall (λ x, x = NaN) xs → nansum xs = f0.
Proof. intros Hall. unfold nansum. by rewrite forallb_isnan_all. Qed.

(** A total that is finite has no infinite summand. *)
Lemma nansum_finite `{!Lib} `{!LibLaws} xs q :
  nansum xs = Fin q → Forall no_infinity xs.
Proof.
  unfold nansum. destruct (forallb f_isnan xs) eqn:Hall.
  - intros _. apply Forall_forall. intros x Hx.
    rewrite forallb_forall in Hall.
    apply list_elem_of_In, Hall in Hx. by destruct x.
  - apply np_nansum_finite.
Qed.

Lemma floats_numbers xs : floats (VNum <$> xs) = Ok xs.
Proof.
  induction xs as [|x xs IH]; [done|].
  rewrite fmap_cons. cbn [floats]. by rewrite IH.
Qed.

(** ** The metric stage on the table [enrich_df] returns *)

Ltac mstep := cbn [mbind result_bind mret result_ret].

Section Metrics.
Context `{!Lib} `{!LibLaws}.

Lemma pct_column_floats X R P :
  pct_column X R P
  = VNum <$> zip_with (λ x rp, row_pct x rp.1 rp.2) X (zip R P).
Proof.
  unfold pct_column. apply list_eq. intros i.
  rewrite list_lookup_fmap, !lookup_zip_with.
  by destruct (X !! i), (R !! i), (P !! i).
Qed.

Lemma month_cell df m r p i :
  cell (enriched df m r p) "월" i = sorted_labels m !! i.
Proof. unfold cell. by rewrite enriched_month. Qed.

Lemma revenue_cell df m r p i :
  cell (enriched df m r p) "매출액" i = VNum <$> revenue_floats m r !! i.
Proof.
  unfold cell. rewrite enriched_revenue. simpl.
  by rewrite list_lookup_fmap.
Qed.

Lemma card_row df m r p i x :
  revenue_floats m r !! i = Some x →
  ∃ label, sorted_labels m !! i = Some label
         ∧ card (enriched df m r p) (Some i) = Ok (Some (label, VNum x)).
Proof.
  intros Hi. pose proof (lookup_lt_Some _ _ _ Hi) as Hlt.
  destruct (lookup_lt_is_Some_2 (sorted_labels m) i) as [label Hl].
  { unfold sorted_labels, revenue_floats in *.
    rewrite take_rows_length.
    by rewrite length_fmap, take_rows_length in Hlt. }
  exists label. split; [done|].
  unfold card, loc_cell, getitem.
  rewrite enriched_month, enriched_revenue. mstep.
  fold (sorted_labels m) (revenue_floats m r). rewrite Hl. mstep.
  by rewrite list_lookup_fmap, Hi.
Qed.

(** The cards when the revenue column has a number and no infinity. *)
Lemma metrics_numbers df m r p q :
  nansum (revenue_floats m r) = Fin q →
  (∃ i y, revenue_floats m r !! i = Some y ∧ is_number y) →
  ∃ i j li lj xi xj,
    first_max (revenue_floats m r) i ∧ first_min (revenue_floats m r) j
    ∧ revenue_floats m r !! i = Some xi ∧ revenue_floats m r !! j = Some xj
    ∧ sorted_labels m !! i = Some li ∧ sorted_labels m !! j = Some lj
    ∧ let s := Summary (Z.quot (Qnum q) (Zpos (Qden q)))
                 (np_mean (pct_floats df m r p))
                 (Some (li, VNum xi)) (Some (lj, VNum xj)) in
      Page0003.metrics (enriched df m r p) = Ok s
      ∧ PageKurly.metrics (enriched df m r p) = Ok s.
Proof.
  intros Hq Hnum. set (R := revenue_floats m r) in *.
  assert (Forall no_infinity R) as Hfin by (by eapply nansum_finite).
  destruct (idxmax_first_max R Hfin Hnum) as (i & Hi & Hmax).
  destruct (idxmin_first_min R Hfin Hnum) as (j & Hj & Hmin).
  pose proof Hmax as (xi & Hxi & _). pose proof Hmin as (xj & Hxj & _).
  destruct (card_row df m r p i xi Hxi) as (li & Hli & Hci).
  destruct (card_row df m r p j xj Hxj) as (lj & Hlj & Hcj).
  exists i, j, li, lj, xi, xj. repeat (split; [done|]).
  unfold Page0003.metrics, PageKurly.metrics, getitem.
  rewrite !enriched_revenue. fold (revenue_floats m r). fold R. mstep.
  rewrite !floats_numbers. mstep. rewrite Hq. cbn [py_int]. mstep.
  rewrite !enriched_pct, pct_column_floats.
  fold (revenue_floats m r). fold (pct_floats df m r p). fold R. mstep.
  rewrite !floats_numbers. mstep.
  rewrite (notna_any_true _ Hnum).
  repeat first
    [ rewrite Hi | rewrite Hj | rewrite Hci | rewrite Hcj
    | rewrite enriched_revenue; fold (revenue_floats m r); fold R
    | rewrite floats_numbers
    | progress mstep ].
  done.
Qed.

(** A total that is not finite stops both pages at the first card. *)
Lemma metrics_not_finite df m r p e :
  py_int (nansum (revenue_floats m r)) = Raise e →
  Page0003.metrics (enriched df m r p) = Raise e
  ∧ PageKurly.metrics (enriched df m r p) = Raise e.
Proof.
  intros He. set (R := revenue_floats m r) in *.
  unfold Page0003.metrics, PageKurly.metrics, getitem.
  rewrite !enriched_revenue. fold (revenue_floats m r). fold R. mstep.
  rewrite !floats_numbers. mstep. by rewrite He.
Qed.

(** The cards when the revenue column has no number. *)
Lemma metrics_all_null df m r p :
  Forall (λ x, x = NaN) (revenue_floats m r) →
  Page0003.metrics (enriched df m r p)
  = Ok (Summary 0 (np_mean (pct_floats df m r p)) None None)
  ∧ PageKurly.metrics (enriched df m r p) = Raise ValueError.
Proof.
  intros Hall. set (R := revenue_floats m r) in *.
  unfold Page0003.metrics, PageKurly.metrics, getitem.
  rewrite !enriched_revenue. fold (revenue_floats m r). fold R. mstep.
  rewrite !floats_numbers. mstep.
  rewrite (nansum_all_nan _ Hall). cbn [py_int f0]. mstep.
  rewrite !enriched_pct, pct_column_floats.
  fold (revenue_floats m r). fold (pct_floats df m r p). fold R. mstep.
  rewrite !floats_numbers. mstep.
  rewrite (notna_any_false _ Hall). mstep.
  unfold idxmax, nanarg. rewrite (forallb_isnan_all _ Hall). done.
Qed.
End Metrics.

(** * The specified properties *)

Section Claims.
Context `{!Lib} `{!LibLaws}.

Lemma required_columns df :
  has_required df →
  ∃ m r p, columns df !! "월" = Some m ∧ columns df !! "매출액" = Some r
         ∧ columns df !! "전년동월" = Some p
         ∧ expected df = Ok (enriched df m r p).
Proof.
  intros ([m Hm] & [r Hr] & [p Hp]). exists m, r, p.
  unfold expected. by rewrite Hm, Hr, Hp.
Qed.

Lemma expected_ok df d :
  expected df = Ok d →
  ∃ m r p, columns df !! "월" = Some m ∧ columns df !! "매출액" = Some r
         ∧ columns df !! "전년동월" = Some p ∧ d = enriched df m r p.
Proof.
  unfold expected. intros Hd.
  destruct (columns df !! "월") as [m|]; [|done].
  destruct (columns df !! "매출액") as [r|]; [|done].
  destruct (columns df !! "전년동월") as [p|]; [|done].
  exists m, r, p. by simplify_eq.
Qed.

Lemma fmap_VNum_inj (xs ys : list fnum) : VNum <$> xs = VNum <$> ys → xs = ys.
Proof.
  revert ys. induction xs as [|x xs IH]; intros [|y ys]; try done.
  rewrite !fmap_cons. intros [= -> Hr]. f_equal. by apply IH.
Qed.

Lemma row_pct_backfilled x r p : backfilled_pct x r p (row_pct x r p).
Proof.
  assert (yoy r NaN = NaN) as Hnan.
  { unfold yoy. by rewrite np_sub_nan, np_div_nan, np_mul_nan. }
  unfold backfilled_pct, row_pct, fill_nan, is_number.
  destruct x as [|s|q]; simpl; [|intuition congruence..].
  destruct (f_ne0 p) eqn:Hp; simpl; [|intuition congruence].
  destruct (yoy r p) eqn:Hy; simpl; [intuition congruence| |];
    (assert (p ≠ NaN) by (intros ->; congruence); intuition congruence).
Qed.

Lemma label_cell_str df i v :
  label_cell df i = Some v → v = nan ∨ ∃ s, v = VStr s.
Proof.
  unfold label_cell. destruct (cell df "월" i) as [w|]; [|done].
  intros [= <-]. destruct w as [s|x|d]; [by eauto|..];
    destruct (isna1 _); eauto.
Qed.

Lemma label_cell_some df m i :
  rectangular df → columns df !! "월" = Some m → (i < nrows df)%nat →
  ∃ v, label_cell df i = Some v.
Proof.
  intros Hrect Hm Hi. unfold label_cell, cell. rewrite Hm. simpl.
  destruct (lookup_lt_is_Some_2 m i) as [v ->]; [|by eexists].
  by rewrite (Hrect _ _ Hm).
Qed.

Lemma order_lookup_row df m j :
  rectangular df → columns df !! "월" = Some m → (j < nrows df)%nat →
  ∃ i v, order_of m !! j = Some i ∧ label_cell df i = Some v.
Proof.
  intros Hrect Hm Hj.
  destruct (order_lookup_some df m Hrect Hm j Hj) as [i Hi].
  pose proof (order_lookup_lt df m Hrect Hm j i Hi) as Hlt.
  destruct (label_cell_some df m i Hrect Hm Hlt) as [v Hv]. eauto.
Qed.

Lemma labels_of_str m i v :
  labels_of m !! i = Some v → v = nan ∨ ∃ s, v = VStr s.
Proof.
  unfold labels_of, str_strip, astype_str. rewrite !list_lookup_fmap.
  destruct (m !! i) as [w|]; [|done]. simpl. intros [= <-].
  destruct w as [s|x|d]; [by eauto|..]; destruct (isna1 _); eauto.
Qed.

Lemma date_key_le a b :
  1 ≤ month a ≤ 12 → 1 ≤ month b ≤ 12 →
  date_key a ≤ date_key b → ym_le a b.
Proof. unfold date_key, ym_le. lia. Qed.

Lemma sorted_labels_ascending m :
  ascending_nulls_last (to_datetime1 <$> sorted_labels m).
Proof.
  intros j1 j2 d1 d2 Hlt. unfold sorted_labels, take_rows.
  rewrite <- !list_fmap_compose, !list_lookup_fmap.
  destruct (order_of m !! j1) as [i1|] eqn:H1; [|done].
  destruct (order_of m !! j2) as [i2|] eqn:H2; [|done].
  simpl. intros [= <-] [= <-].
  destruct (nargsort_sorted _ _ _ _ _ Hlt H1 H2) as (k1 & k2 & Hk1 & Hk2 & Hk).
  pose proof (Forall_lookup_1 _ _ _ _ (order_in_range m) H1) as Hi1.
  pose proof (Forall_lookup_1 _ _ _ _ (order_in_range m) H2) as Hi2.
  destruct (lookup_lt_is_Some_2 _ _ Hi1) as [v1 Hv1].
  destruct (lookup_lt_is_Some_2 _ _ Hi2) as [v2 Hv2].
  unfold to_datetime in Hk1, Hk2.
  rewrite <- list_fmap_compose, list_lookup_fmap in Hk1, Hk2.
  rewrite Hv1 in Hk1. rewrite Hv2 in Hk2. rewrite Hv1, Hv2.
  simpl in *. simplify_eq.
  destruct (labels_of_str _ _ _ Hv1) as [->|[s1 ->]];
    destruct (labels_of_str _ _ _ Hv2) as [->|[s2 ->]]; simpl in *;
    try done.
  - by destruct (strptime s2).
  - by destruct (strptime s1).
  - destruct (strptime s1) as [a|] eqn:Ha;
      destruct (strptime s2) as [b|] eqn:Hb; simpl in *; try done.
    apply date_key_le; [by eapply strptime_month..|done].
Qed.

Lemma sorted_labels_perm df m :
  rectangular df → columns df !! "월" = Some m →
  sorted_labels m ≡ₚ str_strip (astype_str m).
Proof.
  intros Hrect Hm. apply take_rows_perm. rewrite order_perm by done.
  unfold labels_of, str_strip, astype_str. rewrite !length_fmap.
  by rewrite (Hrect _ _ Hm).
Qed.

(** C1 (as amended).  In both scripts the rows of the table returned are
    the rows of the argument in some order, and the percent change of a row
    is: the supplied value when it is a number; else, when the prior-year
    revenue is a number other than zero, the quotient
    [(revenue - prior) / prior * 100], as numpy computes it, when that is a
    number and zero when it is not (a missing revenue); else zero. *)
Theorem percent_change_backfill df :
  rectangular df → has_required df → text_or_numbers df →
  ∃ out order,
    call Dash0003.enrich_df df = Ok out
    ∧ call KurlyDash2.enrich_df df = Ok out
    ∧ order ≡ₚ seq 0 (nrows df)
    ∧ ∀ j i, order !! j = Some i →
        cell out "월" j = label_cell df i
        ∧ ∃ y, cell out "증감률" j = Some (VNum y)
             ∧ backfilled_pct (num_cell df "증감률" i)
                 (num_cell df "매출액" i) (num_cell df "전년동월" i) y.
Proof.
  intros Hrect Hreq _.
  destruct (required_columns df Hreq) as (m & r & p & Hm & Hr & Hp & Hex).
  exists (enriched df m r p), (order_of m).
  rewrite call_0003, call_kurly by done.
  split; [done|]. split; [done|]. split; [by apply order_perm|].
  intros j i Hji. split; [by apply row_label|].
  eexists. split; [by apply row_percent|]. apply row_pct_backfilled.
Qed.

(** C2 (as amended).  In every row of the table returned whose period label
    is read as a date by [pd.to_datetime] under the format [%Y-%m], the
    quarter is an integer from 1 to 4 and is [ceil(month / 3)] for the month
    of that date; in a row whose label is not read as a date, or is
    missing, the quarter is null. *)
Theorem quarter_of_parsed_label df :
  rectangular df → has_required df → text_or_numbers df →
  ∃ out,
    call Dash0003.enrich_df df = Ok out
    ∧ call KurlyDash2.enrich_df df = Ok out
    ∧ ∀ j, (j < nrows df)%nat →
        ∃ label, cell out "월" j = Some label ∧
          match to_datetime1 label with
          | Some d =>
              ∃ q, cell out "분기" j = Some (VNum (Fin (inject_Z q)))
                 ∧ 1 ≤ q ≤ 4
                 ∧ q = Qceiling (inject_Z (month d) / 3)
          | None => cell out "분기" j = Some nan
          end.
Proof.
  intros Hrect Hreq _.
  destruct (required_columns df Hreq) as (m & r & p & Hm & Hr & Hp & Hex).
  exists (enriched df m r p).
  rewrite call_0003, call_kurly by done.
  split; [done|]. split; [done|]. intros j Hj.
  destruct (order_lookup_row df m j Hrect Hm Hj) as (i & v & Hi & Hv).
  exists v. rewrite (row_label df m r p Hrect Hm j i Hi).
  split; [done|].
  rewrite (row_quarter df m r p Hrect Hm j i Hi), Hv. simpl.
  destruct (label_cell_str _ _ _ Hv) as [->|[s ->]]; simpl; [done|].
  destruct (strptime s) as [d|] eqn:Hd; simpl; [|done].
  apply strptime_month in Hd.
  destruct (month_quarter (month d) Hd) as [Hq Hc].
  exists (quarter_of d). unfold quarter_of. by rewrite Hc.
Qed.

(** C3 (as amended).  A table of text and numbers that has the three
    required columns and in which no period label is read as a date is no
    error: [enrich_df] returns, every date and every quarter of the table
    returned is null, and the error branch of the page is not taken. *)
Theorem unparsed_labels_are_not_an_error df :
  rectangular df → has_required df → text_or_numbers df →
  (∀ i v, label_cell df i = Some v → to_datetime1 v = None) →
  ∃ out,
    call Dash0003.enrich_df df = Ok out
    ∧ call KurlyDash2.enrich_df df = Ok out
    ∧ (∀ j v, cell out "_date" j = Some v → v = VDate None)
    ∧ (∀ j v, cell out "분기" j = Some v → v = nan)
    ∧ (∀ e, Page0003.main df ≠ ErrorMessage e)
    ∧ (∀ e, PageKurly.main df ≠ ErrorMessage e).
Proof.
  intros Hrect Hreq _ Hnone.
  destruct (required_columns df Hreq) as (m & r & p & Hm & Hr & Hp & Hex).
  exists (enriched df m r p).
  unfold Page0003.main, PageKurly.main.
  rewrite call_0003, call_kurly, Hex by done.
  split; [done|]. split; [done|].
  assert (∀ j, (j < nrows df)%nat →
            ∃ i v, order_of m !! j = Some i ∧ label_cell df i = Some v
                 ∧ to_datetime1 v = None) as Hrow.
  { intros j Hj.
    destruct (order_lookup_row df m j Hrect Hm Hj) as (i & v & Hi & Hv).
    exists i, v. eauto. }
  split.
  { intros j v Hv.
    assert (j < nrows df)%nat as Hj.
    { unfold cell in Hv. rewrite enriched_date in Hv. simpl in Hv.
      apply lookup_lt_Some in Hv. unfold to_datetime in Hv.
      rewrite length_fmap, take_rows_length, order_length in Hv.
      by rewrite <- (Hrect _ _ Hm). }
    destruct (Hrow j Hj) as (i & l & Hi & Hl & Hd).
    rewrite (row_date df m r p Hrect Hm j i Hi), Hl in Hv.
    simpl in Hv. rewrite Hd in Hv. by simplify_eq. }
  split.
  { intros j v Hv.
    assert (j < nrows df)%nat as Hj.
    { unfold cell in Hv. rewrite enriched_quarter in Hv. simpl in Hv.
      apply lookup_lt_Some in Hv.
      rewrite length_fmap, take_rows_length, order_length in Hv.
      by rewrite <- (Hrect _ _ Hm). }
    destruct (Hrow j Hj) as (i & l & Hi & Hl & Hd).
    rewrite (row_quarter df m r p Hrect Hm j i Hi), Hl in Hv.
    simpl in Hv. rewrite Hd in Hv. by simplify_eq. }
  split; intros e.
  - by destruct (Page0003.metrics (enriched df m r p)).
  - by destruct (PageKurly.metrics (enriched df m r p)).
Qed.

(** C4.  On every table that has the columns 월, 매출액 and 전년동월, with or
    without 증감률, the two [enrich_df] run to the same outcome on every
    heap, and both return the same table. *)
Theorem scripts_agree df :
  rectangular df → has_required df →
  (∀ (h : heap) arg, h !! arg = Some df →
     Dash0003.enrich_df arg h = KurlyDash2.enrich_df arg h)
  ∧ ∃ out, call Dash0003.enrich_df df = Ok out
         ∧ call KurlyDash2.enrich_df df = Ok out.
Proof.
  intros Hrect Hreq.
  destruct (required_columns df Hreq) as (m & r & p & Hm & Hr & Hp & Hex).
  split.
  - intros h arg Harg.
    rewrite (exec_0003 _ _ _ _ _ _ Harg Hrect Hm Hr Hp).
    by rewrite (exec_kurly _ _ _ _ _ _ Harg Hrect Hm Hr Hp).
  - exists (enriched df m r p). by rewrite call_0003, call_kurly.
Qed.

(** C5.  The rows of the table returned are in ascending order of the date
    read from the trimmed period label, and a row whose label is not read
    as a date, or is missing, comes after every row with a date. *)
Theorem rows_ascending_by_date df :
  rectangular df → has_required df → text_or_numbers df →
  ∃ out m labels,
    call Dash0003.enrich_df df = Ok out
    ∧ call KurlyDash2.enrich_df df = Ok out
    ∧ columns df !! "월" = Some m
    ∧ columns out !! "월" = Some labels
    ∧ labels ≡ₚ str_strip (astype_str m)
    ∧ columns out !! "_date" = Some (to_datetime labels)
    ∧ ascending_nulls_last (to_datetime1 <$> labels).
Proof.
  intros Hrect Hreq _.
  destruct (required_columns df Hreq) as (m & r & p & Hm & Hr & Hp & Hex).
  exists (enriched df m r p), m, (sorted_labels m).
  rewrite call_0003, call_kurly by done.
  split; [done|]. split; [done|]. split; [done|].
  split; [apply enriched_month|].
  split; [by eapply sorted_labels_perm|].
  split; [apply enriched_date|]. apply sorted_labels_ascending.
Qed.

(** C6.  On an enriched table with a revenue that is a number, the cards of
    the best and of the worst month, whenever a page shows them, are those
    of the first row with the greatest and of the first row with the least
    revenue; both pages show them when the total of the revenues is
    finite. *)
Theorem best_and_worst_month df d vals :
  rectangular df → call Dash0003.enrich_df df = Ok d →
  columns d !! "매출액" = Some (VNum <$> vals) →
  (∃ i y, vals !! i = Some y ∧ is_number y) →
  call KurlyDash2.enrich_df df = Ok d
  ∧ (∀ s, Page0003.metrics d = Ok s → reports_extremes d vals s)
  ∧ (∀ s, PageKurly.metrics d = Ok s → reports_extremes d vals s)
  ∧ ((∃ q, nansum vals = Fin q) →
     ∃ s, Page0003.metrics d = Ok s ∧ PageKurly.metrics d = Ok s).
Proof.
  intros Hrect Hcall Hvals Hnum.
  rewrite call_0003 in Hcall by done.
  rewrite call_kurly by done. split; [done|].
  destruct (expected_ok _ _ Hcall) as (m & r & p & Hm & Hr & Hp & ->).
  rewrite enriched_revenue in Hvals. injection Hvals as Hvals.
  apply fmap_VNum_inj in Hvals. subst vals.
  fold (revenue_floats m r) in *. set (R := revenue_floats m r) in *.
  assert (∀ q, nansum R = Fin q →
            ∃ s, Page0003.metrics (enriched df m r p) = Ok s
               ∧ PageKurly.metrics (enriched df m r p) = Ok s
               ∧ reports_extremes (enriched df m r p) R s) as Hok.
  { intros q Hq.
    destruct (metrics_numbers df m r p q Hq Hnum)
      as (i & j & li & lj & xi & xj & Hmax & Hmin & Hxi & Hxj & Hli & Hlj
          & H3 & HK).
    eexists. split; [exact H3|]. split; [exact HK|].
    exists i, j, li, lj, xi, xj. rewrite !month_cell. simpl. done. }
  destruct (nansum R) as [|sg|q] eqn:Hq.
  - destruct (metrics_not_finite df m r p ValueError) as [H3 HK];
      [fold R; by rewrite Hq|].
    split; [intros s' Hs'; by rewrite H3 in Hs'|].
    split; [intros s' Hs'; by rewrite HK in Hs'|].
    by intros [q' Hq'].
  - destruct (metrics_not_finite df m r p OverflowError) as [H3 HK];
      [fold R; by rewrite Hq|].
    split; [intros s' Hs'; by rewrite H3 in Hs'|].
    split; [intros s' Hs'; by rewrite HK in Hs'|].
    by intros [q' Hq'].
  - destruct (Hok q eq_refl) as (s & H3 & HK & Hs).
    split; [intros s' Hs'; rewrite H3 in Hs'; by simplify_eq|].
    split; [intros s' Hs'; rewrite HK in Hs'; by simplify_eq|].
    intros _. by exists s.
Qed.

(** C7 (as amended).  The period labels of the table returned are the
    trimmed period labels of the argument in some order, a missing label
    staying missing; they are pairwise distinct exactly when those are. *)
Theorem labels_permuted df :
  rectangular df → has_required df → text_or_numbers df →
  ∃ out m labels,
    call Dash0003.enrich_df df = Ok out
    ∧ call KurlyDash2.enrich_df df = Ok out
    ∧ columns df !! "월" = Some m
    ∧ columns out !! "월" = Some labels
    ∧ labels ≡ₚ str_strip (astype_str m)
    ∧ (NoDup labels ↔ NoDup (str_strip (astype_str m))).
Proof.
  intros Hrect Hreq _.
  destruct (required_columns df Hreq) as (m & r & p & Hm & Hr & Hp & Hex).
  exists (enriched df m r p), m, (sorted_labels m).
  rewrite call_0003, call_kurly by done.
  split; [done|]. split; [done|]. split; [done|].
  split; [apply enriched_month|].
  pose proof (sorted_labels_perm df m Hrect Hm) as Hperm.
  split; [done|]. by rewrite Hperm.
Qed.

(** C8 (as amended).  On every table of text and numbers that has the
    columns 월, 매출액 and 전년동월, [enrich_df] returns: a revenue or a
    prior-year revenue that is read as no number is null in the result; a
    label that is not read as a date is kept as it is and gets a null date
    and a null quarter; a percent change that is read as no number is
    backfilled as a missing one, so that the percent change of the result
    is never null. *)
Theorem unparseable_fields_become_null df :
  rectangular df → has_required df → text_or_numbers df →
  ∃ out order,
    call Dash0003.enrich_df df = Ok out
    ∧ call KurlyDash2.enrich_df df = Ok out
    ∧ order ≡ₚ seq 0 (nrows df)
    ∧ ∀ j i, order !! j = Some i →
        ∃ label,
          cell out "월" j = Some label ∧ label_cell df i = Some label
          ∧ cell out "_date" j = Some (VDate (to_datetime1 label))
          ∧ cell out "분기" j = Some (quarter_cell (to_datetime1 label))
          ∧ cell out "매출액" j = Some (VNum (num_cell df "매출액" i))
          ∧ cell out "전년동월" j = Some (VNum (num_cell df "전년동월" i))
          ∧ (to_datetime1 label = None →
             cell out "_date" j = Some (VDate None)
             ∧ cell out "분기" j = Some nan)
          ∧ (¬ is_number (num_cell df "매출액" i) →
             cell out "매출액" j = Some nan)
          ∧ (¬ is_number (num_cell df "전년동월" i) →
             cell out "전년동월" j = Some nan)
          ∧ (¬ is_number (num_cell df "증감률" i) →
             cell out "증감률" j
             = Some (VNum (row_pct NaN (num_cell df "매출액" i)
                             (num_cell df "전년동월" i))))
          ∧ ∃ y, cell out "증감률" j = Some (VNum y) ∧ is_number y.
Proof.
  intros Hrect Hreq _.
  destruct (required_columns df Hreq) as (m & r & p & Hm & Hr & Hp & Hex).
  exists (enriched df m r p), (order_of m).
  rewrite call_0003, call_kurly by done.
  split; [done|]. split; [done|]. split; [by apply order_perm|].
  intros j i Hji.
  pose proof (order_lookup_lt df m Hrect Hm j i Hji) as Hlt.
  destruct (label_cell_some df m i Hrect Hm Hlt) as [label Hl].
  exists label.
  rewrite (row_label df m r p Hrect Hm j i Hji).
  rewrite (row_date df m r p Hrect Hm j i Hji), Hl.
  rewrite (row_quarter df m r p Hrect Hm j i Hji), Hl.
  rewrite (row_revenue df m r p Hrect Hm Hr j i Hji).
  rewrite (row_prior df m r p Hrect Hm Hp j i Hji).
  rewrite (row_percent df m r p Hrect Hm Hr Hp j i Hji).
  assert (∀ x, ¬ is_number x → x = NaN) as Hnan.
  { intros [] Hx; try done; exfalso; by apply Hx. }
  split; [done|]. split; [done|]. split; [done|]. split; [done|].
  split; [done|]. split; [done|].
  split; [intros Hd; simpl; by rewrite Hd|].
  split; [by intros ->%Hnan|]. split; [by intros ->%Hnan|].
  split; [by intros ->%Hnan|].
  eexists. split; [done|]. unfold row_pct, fill_nan.
  by destruct (if f_isnan _ && f_ne0 _ then _ else _).
Qed.

(** C9.  A call of [enrich_df] leaves every DataFrame object that existed
    before it as it was, its argument included (the result is built on a
    copy), and what it returns depends on the content of the argument
    only: two calls on equal tables return equal tables. *)
Theorem enrich_df_leaves_its_argument (h : heap) (arg : ref) (df : frame) :
  h !! arg = Some df → rectangular df →
  ((∃ new, (Dash0003.enrich_df arg h).2 = h ++ new)
   ∧ (Dash0003.enrich_df arg h).2 !! arg = Some df
   ∧ ∀ (h' : heap) arg', h' !! arg' = Some df →
       returned (Dash0003.enrich_df arg' h')
       = returned (Dash0003.enrich_df arg h))
  ∧ ((∃ new, (KurlyDash2.enrich_df arg h).2 = h ++ new)
     ∧ (KurlyDash2.enrich_df arg h).2 !! arg = Some df
     ∧ ∀ (h' : heap) arg', h' !! arg' = Some df →
         returned (KurlyDash2.enrich_df arg' h')
         = returned (KurlyDash2.enrich_df arg h)).
Proof.
  intros Harg Hrect. split.
  - destruct (enrich_0003_run h arg df Harg Hrect) as (new & Hh & Hret).
    split; [by exists new|]. split.
    + rewrite Hh. rewrite lookup_app_l; [done|by eapply lookup_lt_Some].
    + intros h' arg' Harg'.
      destruct (enrich_0003_run h' arg' df Harg' Hrect) as (? & _ & ->).
      by rewrite Hret.
  - destruct (enrich_kurly_run h arg df Harg Hrect) as (new & Hh & Hret).
    split; [by exists new|]. split.
    + rewrite Hh. rewrite lookup_app_l; [done|by eapply lookup_lt_Some].
    + intros h' arg' Harg'.
      destruct (enrich_kurly_run h' arg' df Harg' Hrect) as (? & _ & ->).
      by rewrite Hret.
Qed.

(** C10.  On an enriched table whose revenues are all null, the metric
    stage of [0003.py] finds no best and no worst row and shows ["-"] on
    both cards without raising, and the metric stage of [kurly_dash_2.py]
    raises. *)
Theorem all_null_revenue df d :
  rectangular df → call Dash0003.enrich_df df = Ok d →
  (∀ i v, cell d "매출액" i = Some v → v = nan) →
  (∃ s, Page0003.metrics d = Ok s
      ∧ best_month s = None ∧ worst_month s = None
      ∧ Page0003.main df = Dashboard s)
  ∧ (∃ e, call KurlyDash2.enrich_df df = Ok d
        ∧ PageKurly.metrics d = Raise e
        ∧ PageKurly.main df = Traceback e).
Proof.
  intros Hrect Hcall Hnull.
  unfold Page0003.main, PageKurly.main. rewrite Hcall.
  rewrite call_0003 in Hcall by done. rewrite call_kurly, Hcall by done.
  destruct (expected_ok _ _ Hcall) as (m & r & p & Hm & Hr & Hp & ->).
  destruct (metrics_all_null df m r p) as [H3 HK].
  { apply Forall_lookup. intros i x Hi.
    specialize (Hnull i (VNum x)). rewrite revenue_cell, Hi in Hnull.
    by injection (Hnull eq_refl). }
  rewrite H3, HK. split; [by eexists|by eexists].
Qed.
End Claims.

(** * The scripts on the example tables *)

(** ** The example library keeps the laws *)

Lemma rev_is_reverse {A} (l : list A) : rev l = reverse l.
Proof.
  induction l as [|x l IH]; [done|].
  simpl. by rewrite IH, reverse_cons.
Qed.

Lemma lstrip_head s c : head (lstrip s) = Some c → is_space c = false.
Proof.
  induction s as [|a s IH]; simpl; [done|].
  destruct (is_space a) eqn:Ha; [done|]. simpl. by intros [= <-].
Qed.

Lemma lstrip_last s c : last (lstrip s) = Some c → last s = Some c.
Proof.
  induction s as [|a s IH]; simpl; [done|].
  destruct (is_space a) eqn:Ha; [|done].
  intros Hc. rewrite last_cons. by rewrite (IH Hc).
Qed.

Lemma is_blank_space c : is_space c = false → is_blank c = false.
Proof.
  unfold is_space, is_blank. intros Hc.
  destruct ((9 <=? c)%N && (c <=? 13)%N) eqn:H1; [done|].
  destruct (c =? 32)%N eqn:H2; [|done].
  apply N.eqb_eq in H2 as ->. done.
Qed.

Lemma py_strip_trimmed s : trimmed (py_strip s).
Proof.
  unfold trimmed, py_strip. rewrite !rev_is_reverse.
  rewrite head_reverse, last_reverse. split.
  - intros c Hc. apply is_blank_space. apply lstrip_last in Hc.
    rewrite last_reverse in Hc. by apply lstrip_head in Hc.
  - intros c Hc. apply is_blank_space. by apply lstrip_head in Hc.
Qed.

Lemma demo_laws : @LibLaws demo_lib.
Proof.
  split.
  - apply py_strip_trimmed.
  - apply strptime_month_range.
  - by intros [].
  - by intros [].
  - by intros [].
  - intros xs q Hq. apply exact_sum_fin. by exists q.
Qed.

(** ** The claims on the example tables *)

Lemma three_months_rectangular : rectangular three_months.
Proof. apply (bool_decide_unpack _). vm_compute. reflexivity. Qed.

Lemma three_months_required : has_required three_months.
Proof. repeat split; eexists; vm_compute; reflexivity. Qed.

(** The three months come out in calendar order; the derived percent change
    of 2024-01 is 15000/1050 = 14.29 and a zero prior-year revenue gives
    zero. *)
Example three_months_enriched :
  ∃ out,
    call (@Dash0003.enrich_df demo_lib) three_months = Ok out
    ∧ columns out !! "월"
      = Some [text "2024-01"; text "2024-02"; text "2024-03"]
    ∧ columns out !! "매출액" = Some [num 12000000; num 13500000; num 11000000]
    ∧ columns out !! "증감률"
      = Some [VNum (Fin (150000000 # 10500000)); VNum (Fin (205 # 10));
              VNum (Fin 0)]
    ∧ columns out !! "분기" = Some [num 1; num 1; num 1].
Proof. eexists. repeat split; vm_compute; reflexivity. Qed.

(** Both pages show the cards of 2024-02 and 2024-03. *)
Example three_months_cards :
  ∃ s,
    @Page0003.main demo_lib three_months = Dashboard s
    ∧ @PageKurly.main demo_lib three_months = Dashboard s
    ∧ total_sales s = 36500000
    ∧ best_month s = Some (text "2024-02", num 13500000)
    ∧ worst_month s = Some (text "2024-03", num 11000000).
Proof. eexists. repeat split; vm_compute; reflexivity. Qed.

(** C1 as stated fails on a row with a prior-year revenue of 10 and no
    revenue: the promised quotient is no number, the table has 0. *)
Lemma percent_change_counterexample :
  ∃ out y,
    call (@Dash0003.enrich_df demo_lib) missing_revenue = Ok out
    ∧ call (@KurlyDash2.enrich_df demo_lib) missing_revenue = Ok out
    ∧ cell out "증감률" 0 = Some (VNum y)
    ∧ y = f0
    ∧ ¬ @promised_pct demo_lib (@num_cell demo_lib missing_revenue "증감률" 0)
          (@num_cell demo_lib missing_revenue "매출액" 0)
          (@num_cell demo_lib missing_revenue "전년동월" 0) y.
Proof.
  eexists _, _. split; [vm_compute; reflexivity|].
  split; [vm_compute; reflexivity|].
  split; [vm_compute; reflexivity|]. split; [reflexivity|].
  intros (_ & H2 & _). vm_compute in H2.
  discriminate H2; [intros Hn; by apply Hn|split; [discriminate|done]].
Qed.

Lemma percent_change_witness :
  rectangular three_months ∧ has_required three_months ∧ text_or_numbers three_months ∧
  ∃ out order,
    call (@Dash0003.enrich_df demo_lib) three_months = Ok out
    ∧ call (@KurlyDash2.enrich_df demo_lib) three_months = Ok out
    ∧ order ≡ₚ seq 0 (nrows three_months)
    ∧ ∀ j i, order !! j = Some i →
        cell out "월" j = @label_cell demo_lib three_months i
        ∧ ∃ y, cell out "증감률" j = Some (VNum y)
             ∧ @backfilled_pct demo_lib (@num_cell demo_lib three_months "증감률" i)
                 (@num_cell demo_lib three_months "매출액" i)
                 (@num_cell demo_lib three_months "전년동월" i) y.
Proof.
  split; [apply (bool_decide_unpack _); vm_compute; reflexivity|].
  split; [repeat split; eexists; vm_compute; reflexivity|].
  split; [vm_compute; reflexivity|].
  apply (@percent_change_backfill demo_lib demo_laws three_months).
  - apply (bool_decide_unpack _). vm_compute. reflexivity.
  - repeat split; eexists; vm_compute; reflexivity.
  - vm_compute. reflexivity.
Defined.

(** C2 as stated fails on a row whose label is ["abc"]: its quarter is
    null. *)
Lemma quarter_counterexample :
  ∃ out v,
    call (@Dash0003.enrich_df demo_lib) unparsed_labels = Ok out
    ∧ call (@KurlyDash2.enrich_df demo_lib) unparsed_labels = Ok out
    ∧ cell out "월" 0 = Some (text "abc")
    ∧ cell out "분기" 0 = Some v
    ∧ ¬ is_quarter v.
Proof.
  eexists _, _. split; [vm_compute; reflexivity|].
  split; [vm_compute; reflexivity|].
  split; [vm_compute; reflexivity|].
  split; [vm_compute; reflexivity|].
  intros (q & Hq & _). discriminate Hq.
Qed.

Lemma quarter_witness :
  rectangular three_months ∧ has_required three_months ∧ text_or_numbers three_months ∧
  ∃ out,
    call (@Dash0003.enrich_df demo_lib) three_months = Ok out
    ∧ call (@KurlyDash2.enrich_df demo_lib) three_months = Ok out
    ∧ ∀ j, (j < nrows three_months)%nat →
        ∃ label, cell out "월" j = Some label ∧
          match @to_datetime1 demo_lib label with
          | Some d =>
              ∃ q, cell out "분기" j = Some (VNum (Fin (inject_Z q)))
                 ∧ 1 ≤ q ≤ 4
                 ∧ q = Qceiling (inject_Z (month d) / 3)
          | None => cell out "분기" j = Some nan
          end.
Proof.
  split; [apply (bool_decide_unpack _); vm_compute; reflexivity|].
  split; [repeat split; eexists; vm_compute; reflexivity|].
  split; [vm_compute; reflexivity|].
  apply (@quarter_of_parsed_label demo_lib demo_laws three_months).
  - apply (bool_decide_unpack _). vm_compute. reflexivity.
  - repeat split; eexists; vm_compute; reflexivity.
  - vm_compute. reflexivity.
Defined.

Lemma unparsed_labels_none i v :
  @label_cell demo_lib unparsed_labels i = Some v → @to_datetime1 demo_lib v = None.
Proof.
  destruct i as [|[|i]]; vm_compute; intros Hv; by simplify_eq.
Qed.

(** C3 as stated fails on a table none of whose labels parses:
    [enrich_df] returns and the page shows its cards. *)
Lemma unparsed_table_counterexample :
  (∀ i v, @label_cell demo_lib unparsed_labels i = Some v →
          @to_datetime1 demo_lib v = None)
  ∧ ∃ out s,
      call (@Dash0003.enrich_df demo_lib) unparsed_labels = Ok out
      ∧ call (@KurlyDash2.enrich_df demo_lib) unparsed_labels = Ok out
      ∧ @Page0003.main demo_lib unparsed_labels = Dashboard s
      ∧ @PageKurly.main demo_lib unparsed_labels = Dashboard s.
Proof.
  split; [apply unparsed_labels_none|].
  eexists _, _. repeat split; vm_compute; reflexivity.
Qed.

Lemma unparsed_labels_witness :
  rectangular unparsed_labels ∧ has_required unparsed_labels ∧
  text_or_numbers unparsed_labels ∧
  (∀ i v, @label_cell demo_lib unparsed_labels i = Some v →
          @to_datetime1 demo_lib v = None) ∧
  ∃ out,
    call (@Dash0003.enrich_df demo_lib) unparsed_labels = Ok out
    ∧ call (@KurlyDash2.enrich_df demo_lib) unparsed_labels = Ok out
    ∧ (∀ j v, cell out "_date" j = Some v → v = VDate None)
    ∧ (∀ j v, cell out "분기" j = Some v → v = nan)
    ∧ (∀ e, @Page0003.main demo_lib unparsed_labels ≠ ErrorMessage e)
    ∧ (∀ e, @PageKurly.main demo_lib unparsed_labels ≠ ErrorMessage e).
Proof.
  assert (∀ i v, @label_cell demo_lib unparsed_labels i = Some v →
                 @to_datetime1 demo_lib v = None) as Hnone.
  { intros [|[|i]] v; vm_compute; intros Hv; by simplify_eq. }
  split; [apply (bool_decide_unpack _); vm_compute; reflexivity|].
  split; [repeat split; eexists; vm_compute; reflexivity|].
  split; [vm_compute; reflexivity|].
  split; [exact Hnone|].
  apply (@unparsed_labels_are_not_an_error demo_lib unparsed_labels).
  - apply (bool_decide_unpack _). vm_compute. reflexivity.
  - repeat split; eexists; vm_compute; reflexivity.
  - vm_compute. reflexivity.
  - exact Hnone.
Defined.

Lemma scripts_agree_witness :
  rectangular three_months ∧ has_required three_months ∧
  (∀ (h : heap) arg, h !! arg = Some three_months →
     @Dash0003.enrich_df demo_lib arg h = @KurlyDash2.enrich_df demo_lib arg h)
  ∧ ∃ out, call (@Dash0003.enrich_df demo_lib) three_months = Ok out
         ∧ call (@KurlyDash2.enrich_df demo_lib) three_months = Ok out.
Proof.
  split; [apply (bool_decide_unpack _); vm_compute; reflexivity|].
  split; [repeat split; eexists; vm_compute; reflexivity|].
  apply (@scripts_agree demo_lib three_months).
  - apply (bool_decide_unpack _). vm_compute. reflexivity.
  - repeat split; eexists; vm_compute; reflexivity.
Defined.

Lemma rows_ascending_witness :
  rectangular three_months ∧ has_required three_months ∧ text_or_numbers three_months ∧
  ∃ out m labels,
    call (@Dash0003.enrich_df demo_lib) three_months = Ok out
    ∧ call (@KurlyDash2.enrich_df demo_lib) three_months = Ok out
    ∧ columns three_months !! "월" = Some m
    ∧ columns out !! "월" = Some labels
    ∧ labels ≡ₚ @str_strip demo_lib (@astype_str demo_lib m)
    ∧ columns out !! "_date" = Some (@to_datetime demo_lib labels)
    ∧ ascending_nulls_last (@to_datetime1 demo_lib <$> labels).
Proof.
  split; [apply (bool_decide_unpack _); vm_compute; reflexivity|].
  split; [repeat split; eexists; vm_compute; reflexivity|].
  split; [vm_compute; reflexivity|].
  apply (@rows_ascending_by_date demo_lib demo_laws three_months).
  - apply (bool_decide_unpack _). vm_compute. reflexivity.
  - repeat split; eexists; vm_compute; reflexivity.
  - vm_compute. reflexivity.
Defined.

Lemma best_and_worst_witness :
  ∃ d vals,
    rectangular three_months
    ∧ call (@Dash0003.enrich_df demo_lib) three_months = Ok d
    ∧ columns d !! "매출액" = Some (VNum <$> vals)
    ∧ (∃ i y, vals !! i = Some y ∧ is_number y)
    ∧ call (@KurlyDash2.enrich_df demo_lib) three_months = Ok d
    ∧ (∀ s, @Page0003.metrics demo_lib d = Ok s → reports_extremes d vals s)
    ∧ (∀ s, @PageKurly.metrics demo_lib d = Ok s → reports_extremes d vals s)
    ∧ ((∃ q, @nansum demo_lib vals = Fin q) →
       ∃ s, @Page0003.metrics demo_lib d = Ok s
          ∧ @PageKurly.metrics demo_lib d = Ok s).
Proof.
  eexists _, [Fin 12000000; Fin 13500000; Fin 11000000].
  assert (∃ i y, [Fin 12000000; Fin 13500000; Fin 11000000] !! i = Some y
                 ∧ is_number y) as Hnum
    by (exists 0%nat, (Fin 12000000); split; [reflexivity|discriminate]).
  split; [apply (bool_decide_unpack _); vm_compute; reflexivity|].
  split; [vm_compute; reflexivity|].
  split; [vm_compute; reflexivity|].
  split; [exact Hnum|].
  apply (@best_and_worst_month demo_lib demo_laws three_months).
  - apply (bool_decide_unpack _). vm_compute. reflexivity.
  - vm_compute. reflexivity.
  - vm_compute. reflexivity.
  - exact Hnum.
Defined.

(** C7 as stated fails on a table with the same month twice: the table
    returned has the label twice. *)
Lemma distinct_labels_counterexample :
  ∃ out labels,
    call (@Dash0003.enrich_df demo_lib) repeated_month = Ok out
    ∧ call (@KurlyDash2.enrich_df demo_lib) repeated_month = Ok out
    ∧ columns out !! "월" = Some labels
    ∧ labels = [text "2024-01"; text "2024-01"]
    ∧ ¬ NoDup labels.
Proof.
  eexists _, _. split; [vm_compute; reflexivity|].
  split; [vm_compute; reflexivity|].
  split; [vm_compute; reflexivity|]. split; [reflexivity|].
  rewrite NoDup_cons. intros [Hin _]. apply Hin. by left.
Qed.

Lemma labels_permuted_witness :
  rectangular repeated_month ∧ has_required repeated_month ∧ text_or_numbers repeated_month ∧
  ∃ out m labels,
    call (@Dash0003.enrich_df demo_lib) repeated_month = Ok out
    ∧ call (@KurlyDash2.enrich_df demo_lib) repeated_month = Ok out
    ∧ columns repeated_month !! "월" = Some m
    ∧ columns out !! "월" = Some labels
    ∧ labels ≡ₚ @str_strip demo_lib (@astype_str demo_lib m)
    ∧ (NoDup labels ↔ NoDup (@str_strip demo_lib (@astype_str demo_lib m))).
Proof.
  split; [apply (bool_decide_unpack _); vm_compute; reflexivity|].
  split; [repeat split; eexists; vm_compute; reflexivity|].
  split; [vm_compute; reflexivity|].
  apply (@labels_permuted demo_lib repeated_month).
  - apply (bool_decide_unpack _). vm_compute. reflexivity.
  - repeat split; eexists; vm_compute; reflexivity.
  - vm_compute. reflexivity.
Defined.

(** C8 as stated fails on a row whose label is ["2024-13"] and whose
    percent change is the text ["abc"], with a revenue of 15 and a
    prior-year revenue of 10: neither field is null in the table returned,
    the label is kept and the percent change is the quotient 50. *)
Lemma unparseable_fields_counterexample :
  ∃ out q,
    call (@Dash0003.enrich_df demo_lib) unparseable_fields = Ok out
    ∧ call (@KurlyDash2.enrich_df demo_lib) unparseable_fields = Ok out
    ∧ cell unparseable_fields "월" 0 = Some (text "2024-13")
    ∧ @to_datetime1 demo_lib (text "2024-13") = None
    ∧ cell unparseable_fields "증감률" 0 = Some (text "abc")
    ∧ @num_cell demo_lib unparseable_fields "증감률" 0 = NaN
    ∧ cell out "월" 0 = Some (text "2024-13")
    ∧ cell out "증감률" 0 = Some (VNum (Fin q))
    ∧ (q == 50)%Q
    ∧ text "2024-13" ≠ nan ∧ VNum (Fin q) ≠ nan.
Proof.
  eexists _, _. split; [vm_compute; reflexivity|].
  split; [vm_compute; reflexivity|].
  split; [vm_compute; reflexivity|].
  split; [vm_compute; reflexivity|].
  split; [vm_compute; reflexivity|].
  split; [vm_compute; reflexivity|].
  split; [vm_compute; reflexivity|].
  split; [vm_compute; reflexivity|].
  split; [vm_compute; reflexivity|].
  split; discriminate.
Qed.

Lemma unparseable_fields_witness :
  rectangular unparseable_fields ∧ has_required unparseable_fields ∧
  text_or_numbers unparseable_fields ∧
  ∃ out order,
    call (@Dash0003.enrich_df demo_lib) unparseable_fields = Ok out
    ∧ call (@KurlyDash2.enrich_df demo_lib) unparseable_fields = Ok out
    ∧ order ≡ₚ seq 0 (nrows unparseable_fields)
    ∧ ∀ j i, order !! j = Some i →
        ∃ label,
          cell out "월" j = Some label
          ∧ @label_cell demo_lib unparseable_fields i = Some label
          ∧ cell out "_date" j = Some (VDate (@to_datetime1 demo_lib label))
          ∧ cell out "분기" j
            = Some (quarter_cell (@to_datetime1 demo_lib label))
          ∧ cell out "매출액" j
            = Some (VNum (@num_cell demo_lib unparseable_fields "매출액" i))
          ∧ cell out "전년동월" j
            = Some (VNum (@num_cell demo_lib unparseable_fields "전년동월" i))
          ∧ (@to_datetime1 demo_lib label = None →
             cell out "_date" j = Some (VDate None)
             ∧ cell out "분기" j = Some nan)
          ∧ (¬ is_number (@num_cell demo_lib unparseable_fields "매출액" i) →
             cell out "매출액" j = Some nan)
          ∧ (¬ is_number
                 (@num_cell demo_lib unparseable_fields "전년동월" i) →
             cell out "전년동월" j = Some nan)
          ∧ (¬ is_number (@num_cell demo_lib unparseable_fields "증감률" i) →
             cell out "증감률" j
             = Some (VNum (@row_pct demo_lib NaN
                             (@num_cell demo_lib unparseable_fields "매출액" i)
                             (@num_cell demo_lib unparseable_fields
                                "전년동월" i))))
          ∧ ∃ y, cell out "증감률" j = Some (VNum y) ∧ is_number y.
Proof.
  split; [apply (bool_decide_unpack _); vm_compute; reflexivity|].
  split; [repeat split; eexists; vm_compute; reflexivity|].
  split; [vm_compute; reflexivity|].
  apply (@unparseable_fields_become_null demo_lib unparseable_fields).
  - apply (bool_decide_unpack _). vm_compute. reflexivity.
  - repeat split; eexists; vm_compute; reflexivity.
  - vm_compute. reflexivity.
Defined.

Lemma enrich_df_pure_witness :
  [three_months] !! 0%nat = Some three_months ∧ rectangular three_months ∧
  ((∃ new, (@Dash0003.enrich_df demo_lib 0%nat [three_months]).2
           = [three_months] ++ new)
   ∧ (@Dash0003.enrich_df demo_lib 0%nat [three_months]).2 !! 0%nat
     = Some three_months
   ∧ ∀ (h' : heap) arg', h' !! arg' = Some three_months →
       returned (@Dash0003.enrich_df demo_lib arg' h')
       = returned (@Dash0003.enrich_df demo_lib 0%nat [three_months]))
  ∧ ((∃ new, (@KurlyDash2.enrich_df demo_lib 0%nat [three_months]).2
             = [three_months] ++ new)
     ∧ (@KurlyDash2.enrich_df demo_lib 0%nat [three_months]).2 !! 0%nat
       = Some three_months
     ∧ ∀ (h' : heap) arg', h' !! arg' = Some three_months →
         returned (@KurlyDash2.enrich_df demo_lib arg' h')
         = returned (@KurlyDash2.enrich_df demo_lib 0%nat [three_months])).
Proof.
  split; [reflexivity|].
  split; [apply (bool_decide_unpack _); vm_compute; reflexivity|].
  apply (@enrich_df_leaves_its_argument demo_lib [three_months] 0%nat
           three_months).
  - reflexivity.
  - apply (bool_decide_unpack _). vm_compute. reflexivity.
Defined.

Lemma all_null_revenue_witness :
  ∃ d,
    rectangular missing_revenue
    ∧ call (@Dash0003.enrich_df demo_lib) missing_revenue = Ok d
    ∧ (∀ i v, cell d "매출액" i = Some v → v = nan)
    ∧ (∃ s, @Page0003.metrics demo_lib d = Ok s
          ∧ best_month s = None ∧ worst_month s = None
          ∧ @Page0003.main demo_lib missing_revenue = Dashboard s)
    ∧ (∃ e, call (@KurlyDash2.enrich_df demo_lib) missing_revenue = Ok d
          ∧ @PageKurly.metrics demo_lib d = Raise e
          ∧ @PageKurly.main demo_lib missing_revenue = Traceback e).
Proof.
  eexists.
  split; [apply (bool_decide_unpack _); vm_compute; reflexivity|].
  split; [vm_compute; reflexivity|].
  split; [intros [|i] v; vm_compute; intros Hv; by simplify_eq|].
  apply (@all_null_revenue demo_lib missing_revenue).
  - apply (bool_decide_unpack _). vm_compute. reflexivity.
  - vm_compute. reflexivity.
  - intros [|i] v; vm_compute; intros Hv; by simplify_eq.
Defined.

(** * Further properties of the scripts *)

Lemma row_pct_number `{!Lib} x r p : is_number (row_pct x r p).
Proof.
  unfold row_pct, fill_nan, is_number.
  by destruct (if f_isnan x && f_ne0 p then yoy r p else x).
Qed.

Lemma forallb_isnan_notna xs : forallb f_isnan xs = negb (notna_any xs).
Proof.
  induction xs as [|x xs IH]; [done|].
  simpl. rewrite IH. by destruct x.
Qed.

Lemma nanarg_some lt worst xs :
  notna_any xs = true → ∃ i, nanarg lt worst xs = Ok i.
Proof.
  intros Hany. unfold nanarg. rewrite forallb_isnan_notna, Hany. simpl.
  destruct xs as [|x xs]; [done|]. rewrite fmap_cons. by eexists.
Qed.

Lemma nanarg_none lt worst xs :
  notna_any xs = false → nanarg lt worst xs = Raise ValueError.
Proof.
  intros Hany. unfold nanarg. by rewrite forallb_isnan_notna, Hany.
Qed.

Lemma notna_any_number xs :
  notna_any xs = true → ∃ i y, xs !! i = Some y ∧ is_number y.
Proof.
  unfold notna_any. intros (y & Hin & Hy)%existsb_exists.
  apply list_elem_of_In, list_elem_of_lookup_1 in Hin as [i Hi].
  exists i, y. split; [done|]. by intros ->.
Qed.

Lemma notna_any_all_nan xs :
  notna_any xs = false → Forall (λ x, x = NaN) xs.
Proof.
  induction xs as [|x xs IH]; simpl; [by constructor|].
  destruct x; simpl; try done. intros Hxs. constructor; [done|by apply IH].
Qed.

Lemma by_sign_numbers (pos neg : string) ys :
  Forall is_number ys →
  by_sign (Ok pos) (Ok neg) ys
  = Ok ((λ y, if f_ltb y f0 then neg else pos) <$> ys).
Proof.
  induction 1 as [|y ys Hy _ IH]; [done|].
  cbn [by_sign]. rewrite IH, fmap_cons.
  destruct y as [|s|q]; [by destruct Hy|by destruct s|].
  unfold f_geb, f0. by destruct (f_ltb (Fin q) (Fin 0)).
Qed.




Section Further.
Context `{!Lib} `{!LibLaws}.

Lemma main_0003_not_error df d :
  call Dash0003.enrich_df df = Ok d → ∀ e, Page0003.main df ≠ ErrorMessage e.
Proof.
  intros Hd e. unfold Page0003.main. rewrite Hd.
  by destruct (Page0003.metrics d).
Qed.

Lemma main_kurly_not_error df d :
  call KurlyDash2.enrich_df df = Ok d → ∀ e, PageKurly.main df ≠ ErrorMessage e.
Proof.
  intros Hd e. unfold PageKurly.main. rewrite Hd.
  by destruct (PageKurly.metrics d).
Qed.

Lemma call_0003_no_month df :
  columns df !! "월" = None →
  call Dash0003.enrich_df df = Raise (KeyError "월").
Proof.
  intros Hm. unfold call.
  by rewrite (raise_0003_month [df] 0%nat df eq_refl Hm).
Qed.

Lemma call_kurly_no_month df :
  columns df !! "월" = None →
  call KurlyDash2.enrich_df df = Raise (KeyError "월").
Proof.
  intros Hm. unfold call.
  by rewrite (raise_kurly_month [df] 0%nat df eq_refl Hm).
Qed.

Lemma call_0003_no_revenue df m :
  columns df !! "월" = Some m → columns df !! "매출액" = None →
  call Dash0003.enrich_df df = Raise (KeyError "매출액").
Proof.
  intros Hm Hr. unfold call.
  by rewrite (raise_0003_revenue [df] 0%nat df m eq_refl Hm Hr).
Qed.

Lemma call_kurly_no_revenue df m :
  columns df !! "월" = Some m → columns df !! "매출액" = None →
  call KurlyDash2.enrich_df df = Raise (KeyError "매출액").
Proof.
  intros Hm Hr. unfold call.
  by rewrite (raise_kurly_revenue [df] 0%nat df m eq_refl Hm Hr).
Qed.

Lemma call_0003_no_prior df m r :
  columns df !! "월" = Some m → columns df !! "매출액" = Some r →
  columns df !! "전년동월" = None →
  call Dash0003.enrich_df df = Raise (KeyError "전년동월").
Proof.
  intros Hm Hr Hp. unfold call.
  by rewrite (raise_0003_prior [df] 0%nat df m r eq_refl Hm Hr Hp).
Qed.

Lemma call_kurly_no_prior df m r :
  columns df !! "월" = Some m → columns df !! "매출액" = Some r →
  columns df !! "전년동월" = None →
  call KurlyDash2.enrich_df df = Raise (KeyError "전년동월").
Proof.
  intros Hm Hr Hp. unfold call.
  by rewrite (raise_kurly_prior [df] 0%nat df m r eq_refl Hm Hr Hp).
Qed.

(** X1.  A missing column 월, 매출액 or 전년동월 makes [enrich_df] raise the
    [KeyError] of the first one missing, in that order, and the page shows
    the error message; on a table of text and numbers with the three
    columns the error branch is not taken, whether the table has a column
    증감률 or not. *)
Theorem error_message_names_first_missing_column df :
  (columns df !! "월" = None →
   Page0003.main df = ErrorMessage (KeyError "월")
   ∧ PageKurly.main df = ErrorMessage (KeyError "월"))
  ∧ (is_Some (columns df !! "월") → columns df !! "매출액" = None →
     Page0003.main df = ErrorMessage (KeyError "매출액")
     ∧ PageKurly.main df = ErrorMessage (KeyError "매출액"))
  ∧ (is_Some (columns df !! "월") → is_Some (columns df !! "매출액") →
     columns df !! "전년동월" = None →
     Page0003.main df = ErrorMessage (KeyError "전년동월")
     ∧ PageKurly.main df = ErrorMessage (KeyError "전년동월"))
  ∧ (rectangular df → has_required df → text_or_numbers df →
     ∀ e, Page0003.main df ≠ ErrorMessage e
          ∧ PageKurly.main df ≠ ErrorMessage e).
Proof.
  unfold Page0003.main, PageKurly.main.
  split; [|split; [|split]].
  - intros Hm. by rewrite call_0003_no_month, call_kurly_no_month.
  - intros [m Hm] Hr.
    by rewrite (call_0003_no_revenue df m), (call_kurly_no_revenue df m).
  - intros [m Hm] [r Hr] Hp.
    by rewrite (call_0003_no_prior df m r), (call_kurly_no_prior df m r).
  - intros Hrect Hreq _ e.
    destruct (required_columns df Hreq) as (m & r & p & Hm & Hr & Hp & Hex).
    split.
    + apply (main_0003_not_error df (enriched df m r p)).
      by rewrite call_0003.
    + apply (main_kurly_not_error df (enriched df m r p)).
      by rewrite call_kurly.
Qed.

Lemma enriched_columns_length df m r p c xs :
  rectangular df → columns df !! "월" = Some m →
  columns (enriched df m r p) !! c = Some xs → length xs = nrows df.
Proof.
  intros Hrect Hm. pose proof (order_length m) as Ho.
  rewrite (Hrect _ _ Hm) in Ho.
  unfold enriched. cbn [columns].
  rewrite !lookup_insert. repeat case_decide; simplify_eq.
  - intros [= <-]. by rewrite length_fmap, take_rows_length.
  - intros [= <-]. unfold pct_column.
    rewrite length_zip_with, length_zip_with, !length_fmap, !take_rows_length.
    rewrite (supplied_length df m Hrect Hm). lia.
  - intros [= <-]. by rewrite !length_fmap, take_rows_length.
  - intros [= <-]. by rewrite !length_fmap, take_rows_length.
  - unfold sorted_columns. rewrite lookup_fmap.
    destruct (columns (dated df m) !! c) as [ys|]; [|done].
    simpl. intros [= <-]. by rewrite take_rows_length.
Qed.

(** X2.  The table returned has the rows of the argument, one cell per row
    in every column, and the columns of the argument with [_date], 증감률
    and 분기 added. *)
Theorem enriched_table_shape df :
  rectangular df → has_required df →
  ∃ out,
    call Dash0003.enrich_df df = Ok out
    ∧ call KurlyDash2.enrich_df df = Ok out
    ∧ nrows out = nrows df
    ∧ rectangular out
    ∧ dom (columns out)
      = dom (columns df) ∪ {["_date"]} ∪ {["증감률"]} ∪ {["분기"]}.
Proof.
  intros Hrect Hreq.
  destruct (required_columns df Hreq) as (m & r & p & Hm & Hr & Hp & Hex).
  exists (enriched df m r p).
  rewrite call_0003, call_kurly by done.
  split; [done|]. split; [done|]. split; [done|]. split.
  - intros c xs Hc.
    exact (enriched_columns_length df m r p c xs Hrect Hm Hc).
  - unfold enriched, sorted_columns, dated. cbn [columns setitem].
    rewrite !dom_insert_L, dom_fmap_L, !dom_insert_L.
    apply elem_of_dom_2 in Hm, Hr, Hp.
    apply set_eq. intros c. rewrite !elem_of_union, !elem_of_singleton.
    split; [|intuition congruence].
    intros [->|[->|[->|[->|[->|[->|Hc]]]]]]; auto.
Qed.

(** X3.  In the table returned the percent change is never null, and the
    quarter is null or an integer from 1 to 4. *)
Theorem percent_change_is_never_null df :
  rectangular df → has_required df → text_or_numbers df →
  ∃ out,
    call Dash0003.enrich_df df = Ok out
    ∧ call KurlyDash2.enrich_df df = Ok out
    ∧ ∀ j v,
        (cell out "증감률" j = Some v → ∃ y, v = VNum y ∧ is_number y)
        ∧ (cell out "분기" j = Some v → v = nan ∨ is_quarter v).
Proof.
  intros Hrect Hreq _.
  destruct (required_columns df Hreq) as (m & r & p & Hm & Hr & Hp & Hex).
  exists (enriched df m r p).
  rewrite call_0003, call_kurly by done.
  split; [done|]. split; [done|]. intros j v.
  unfold cell. rewrite enriched_pct, enriched_quarter.
  cbn [mbind option_bind]. split.
  - rewrite pct_column_floats.
    intros (y & -> & Hy)%list_lookup_fmap_Some. exists y. split; [done|].
    apply lookup_zip_with_Some in Hy as (x & [a b] & -> & _ & _).
    apply row_pct_number.
  - intros (w & -> & Hw)%list_lookup_fmap_Some.
    destruct (to_datetime1 w) as [d|] eqn:Hd; simpl; [|by left].
    right. exists (quarter_of d). split; [done|].
    assert (1 ≤ month d ≤ 12) as Hmonth.
    { revert Hw. unfold take_rows. rewrite list_lookup_fmap.
      destruct (order_of m !! j) as [i|] eqn:Hi; [|done]. simpl.
      pose proof (Forall_lookup_1 _ _ _ _ (order_in_range m) Hi) as Hlt.
      destruct (lookup_lt_is_Some_2 _ _ Hlt) as [l Hl]. rewrite Hl. simpl.
      intros [= <-].
      destruct (labels_of_str _ _ _ Hl) as [->|[s ->]]; [done|].
      by eapply strptime_month. }
    by destruct (month_quarter (month d) Hmonth) as [Hq _].
Qed.


(** X5.  A column the scripts do not write is carried along row by row: in
    the table returned its cell in a row is its cell in the row of the
    argument that the period label of the row comes from. *)
Theorem other_columns_follow_their_row df :
  rectangular df → has_required df →
  ∃ out order,
    call Dash0003.enrich_df df = Ok out
    ∧ call KurlyDash2.enrich_df df = Ok out
    ∧ order ≡ₚ seq 0 (nrows df)
    ∧ ∀ j i, order !! j = Some i →
        cell out "월" j = label_cell df i
        ∧ ∀ c, c ∉ written → cell out c j = cell df c i.
Proof.
  intros Hrect Hreq.
  destruct (required_columns df Hreq) as (m & r & p & Hm & Hr & Hp & Hex).
  exists (enriched df m r p), (order_of m).
  rewrite call_0003, call_kurly by done.
  split; [done|]. split; [done|]. split; [by apply order_perm|].
  intros j i Hji. split; [by apply row_label|].
  intros c Hc. unfold written in Hc.
  rewrite !not_elem_of_cons in Hc.
  destruct Hc as (H1 & H2 & H3 & H4 & H5 & H6 & _).
  unfold cell, enriched. cbn [columns].
  rewrite !lookup_insert_ne by done.
  rewrite sorted_columns_other by done.
  destruct (columns df !! c) as [xs|] eqn:Hxs; [|done]. simpl.
  unfold take_rows. rewrite list_lookup_fmap, Hji. simpl.
  destruct (lookup_lt_is_Some_2 xs i) as [x ->]; [|done].
  rewrite (Hrect _ _ Hxs). by eapply order_lookup_lt.
Qed.

(** X6.  On any table the two metric stages show the same cards or stop
    with the same exception, but for one case: no revenue is a number, where
    the first script shows its cards with no best and no worst month and
    the second raises. *)
Theorem metrics_differ_only_without_revenue (d : frame) :
  Page0003.metrics d = PageKurly.metrics d
  ∨ ∃ s vals,
      Page0003.metrics d = Ok s
      ∧ best_month s = None ∧ worst_month s = None
      ∧ PageKurly.metrics d = Raise ValueError
      ∧ (getitem d "매출액" ≫= floats) = Ok vals
      ∧ Forall (λ x, x = NaN) vals.
Proof.
  unfold Page0003.metrics, PageKurly.metrics.
  destruct (getitem d "매출액") as [rv|e]; mstep; [|by left].
  destruct (floats rv) as [vals|e]; mstep; [|by left].
  destruct (py_int (nansum vals)) as [t|e]; mstep; [|by left].
  destruct (getitem d "증감률") as [pv|e]; mstep; [|by left].
  destruct (floats pv) as [pct|e]; mstep; [|by left].
  destruct (notna_any vals) eqn:Hany.
  - left.
    destruct (nanarg_some f_ltb (Inf true) vals Hany) as [i Hi].
    destruct (nanarg_some (λ a b, f_ltb b a) (Inf false) vals Hany)
      as [j Hj].
    unfold idxmax, idxmin. rewrite Hi, Hj. mstep.
    destruct (card d (Some i)) as [ci|e]; mstep; [|done].
    by destruct (card d (Some j)) as [cj|e].
  - right. eexists _, vals. mstep. cbn [card]. mstep.
    split; [done|]. split; [done|]. split; [done|].
    split; [|split; [done|by apply notna_any_all_nan]].
    unfold idxmax. by rewrite (nanarg_none _ _ _ Hany).
Qed.

(** X7.  A revenue that is read as an infinity stops both pages with one
    and the same exception of [int], past the [try]: the total of a column
    with an infinity is an infinity or NaN. *)
Theorem infinite_revenue_stops_both_pages df :
  rectangular df → has_required df → text_or_numbers df →
  (∃ i s, num_cell df "매출액" i = Inf s) →
  ∃ out e,
    call Dash0003.enrich_df df = Ok out
    ∧ call KurlyDash2.enrich_df df = Ok out
    ∧ (e = OverflowError ∨ e = ValueError)
    ∧ Page0003.main df = Traceback e
    ∧ PageKurly.main df = Traceback e.
Proof.
  intros Hrect Hreq _ (i & s & Hinf).
  destruct (required_columns df Hreq) as (m & r & p & Hm & Hr & Hp & Hex).
  exists (enriched df m r p).
  unfold Page0003.main, PageKurly.main.
  rewrite call_0003, call_kurly, Hex by done.
  set (R := revenue_floats m r).
  assert (∃ j, R !! j = Some (Inf s)) as [j Hj].
  { assert (i < nrows df)%nat as Hi.
    { revert Hinf. unfold num_cell, cell. rewrite Hr. simpl.
      destruct (r !! i) as [v|] eqn:Hv; [|done]. intros _.
      rewrite <- (Hrect _ _ Hr). by eapply lookup_lt_Some. }
    assert (i ∈ order_of m) as Hin.
    { rewrite (order_perm df m Hrect Hm). apply elem_of_seq. lia. }
    apply list_elem_of_lookup_1 in Hin as [j Hji]. exists j.
    unfold R, revenue_floats.
    by rewrite (sorted_num_lookup df m Hrect Hm j i Hji _ _ Hr), Hinf. }
  assert (∃ e, (e = OverflowError ∨ e = ValueError)
               ∧ py_int (nansum R) = Raise e) as (e & He & Hint).
  { destruct (nansum R) as [|t|q] eqn:Hs; simpl; [by eauto..|].
    apply nansum_finite in Hs.
    by destruct (Forall_lookup_1 _ _ _ _ Hs Hj). }
  exists e.
  destruct (metrics_not_finite df m r p e Hint) as [H3 HK].
  rewrite H3, HK. done.
Qed.

(** X9.  The bars of the second chart: each page colours one bar per row,
    and a bar has the colour of a fall exactly when the percent change of
    its row is below zero; no bar is coloured for a missing value. *)
Theorem bar_colours_follow_sign df :
  rectangular df → has_required df →
  ∃ out ys,
    call Dash0003.enrich_df df = Ok out
    ∧ call KurlyDash2.enrich_df df = Ok out
    ∧ columns out !! "증감률" = Some (VNum <$> ys)
    ∧ length ys = nrows df
    ∧ Forall is_number ys
    ∧ Charts0003.colors out
      = Ok ((λ y, if f_ltb y f0 then "#610D7C" else "#5E0081") <$> ys)
    ∧ ChartsKurly.bar_colors out
      = Ok ((λ y, if f_ltb y f0 then "#8B57A0" else "#AA73C3") <$> ys).
Proof.
  intros Hrect Hreq.
  destruct (required_columns df Hreq) as (m & r & p & Hm & Hr & Hp & Hex).
  exists (enriched df m r p), (pct_floats df m r p).
  rewrite call_0003, call_kurly by done.
  split; [done|]. split; [done|].
  assert (columns (enriched df m r p) !! "증감률"
          = Some (VNum <$> pct_floats df m r p)) as Hpct.
  { by rewrite enriched_pct, pct_column_floats. }
  assert (Forall is_number (pct_floats df m r p)) as Hnum.
  { apply Forall_lookup. intros j y.
    unfold pct_floats. intros (x & [a b] & -> & _ & _)%lookup_zip_with_Some.
    apply row_pct_number. }
  split; [done|]. split.
  { unfold pct_floats, revenue_floats.
    rewrite length_zip_with, length_zip, !length_fmap, !take_rows_length.
    rewrite (supplied_length df m Hrect Hm), order_length.
    rewrite (Hrect _ _ Hm). lia. }
  split; [done|].
  unfold Charts0003.colors, ChartsKurly.bar_colors, getitem.
  rewrite Hpct. mstep. rewrite floats_numbers. mstep.
  split.
  - by rewrite <- (by_sign_numbers _ _ _ Hnum).
  - by rewrite <- (by_sign_numbers _ _ _ Hnum).
Qed.


(** X11.  The preview under the charts never fails for want of the column
    it drops: it shows every column of the enriched table but the sort
    key, also when the uploaded table had a column of that name. *)
Theorem preview_drops_only_the_sort_key df :
  rectangular df → has_required df →
  ∃ out shown,
    call Dash0003.enrich_df df = Ok out
    ∧ call KurlyDash2.enrich_df df = Ok out
    ∧ preview out = Ok shown
    ∧ nrows shown = nrows df
    ∧ columns shown !! "_date" = None
    ∧ (∀ c, c ≠ "_date" → columns shown !! c = columns out !! c)
    ∧ dom (columns shown)
      = (dom (columns df) ∖ {["_date"]}) ∪ {["증감률"]} ∪ {["분기"]}.
Proof.
  intros Hrect Hreq.
  destruct (required_columns df Hreq) as (m & r & p & Hm & Hr & Hp & Hex).
  exists (enriched df m r p). eexists.
  rewrite call_0003, call_kurly by done.
  split; [done|]. split; [done|].
  unfold preview, drop_columns. cbn [filter list_filter].
  rewrite enriched_date.
  rewrite decide_False by done. cbn [foldr].
  split; [done|]. split; [done|]. cbn [columns].
  split; [by rewrite lookup_delete_eq|].
  split; [by intros c Hc; rewrite lookup_delete_ne|].
  rewrite dom_delete_L.
  unfold enriched, sorted_columns, dated. cbn [columns setitem].
  rewrite !dom_insert_L, dom_fmap_L, !dom_insert_L.
  apply elem_of_dom_2 in Hm, Hr, Hp.
  apply set_eq. intros c.
  repeat first [rewrite elem_of_difference | rewrite elem_of_union
                | rewrite elem_of_singleton].
  split.
  - intros [[->|[->|[->|[->|[->|[->|H1]]]]]] Hne]; auto.
    by destruct Hne.
  - intros [[[H1 H2]| ->]| ->]; (split; [auto 10|done]).
Qed.
(** X12.  What [enrich_df] returns is a DataFrame object of its own: the
    reference returned is none of the objects that existed before the
    call, its argument included, and holds the enriched table. *)
Theorem result_is_a_new_object (h : heap) (arg : ref) (df : frame) :
  h !! arg = Some df → rectangular df → has_required df →
  ∃ out,
    (∃ res h', Dash0003.enrich_df arg h = (Ok res, h')
             ∧ h !! res = None ∧ res ≠ arg ∧ h' !! res = Some out)
    ∧ (∃ res h', KurlyDash2.enrich_df arg h = (Ok res, h')
               ∧ h !! res = None ∧ res ≠ arg ∧ h' !! res = Some out).
Proof.
  intros Harg Hrect Hreq.
  destruct (required_columns df Hreq) as (m & r & p & Hm & Hr & Hp & _).
  pose proof (lookup_lt_Some _ _ _ Harg) as Hlt.
  exists (enriched df m r p). split.
  - eexists _, _. split; [exact (exec_0003 h arg df m r p Harg Hrect Hm Hr Hp)|].
    split; [apply lookup_ge_None_2; lia|]. split; [lia|].
    rewrite lookup_app_r by lia.
    by replace (length h + 2 - length h)%nat with 2%nat by lia.
  - eexists _, _. split; [exact (exec_kurly h arg df m r p Harg Hrect Hm Hr Hp)|].
    split; [apply lookup_ge_None_2; lia|]. split; [lia|].
    rewrite lookup_app_r by lia.
    by replace (length h + 2 - length h)%nat with 2%nat by lia.
Qed.
End Further.

(** * The further properties on the example tables *)

Lemma error_message_witness :
  is_Some (columns no_revenue_column !! "월")
  ∧ columns no_revenue_column !! "매출액" = None
  ∧ @Page0003.main demo_lib no_revenue_column
    = ErrorMessage (KeyError "매출액")
  ∧ @PageKurly.main demo_lib no_revenue_column
    = ErrorMessage (KeyError "매출액").
Proof.
  split; [eexists; vm_compute; reflexivity|].
  split; [vm_compute; reflexivity|].
  apply (proj1 (proj2 (@error_message_names_first_missing_column demo_lib
                         no_revenue_column))).
  - eexists. vm_compute. reflexivity.
  - vm_compute. reflexivity.
Defined.

Lemma enriched_table_shape_witness :
  rectangular with_note ∧ has_required with_note ∧
  ∃ out,
    call (@Dash0003.enrich_df demo_lib) with_note = Ok out
    ∧ call (@KurlyDash2.enrich_df demo_lib) with_note = Ok out
    ∧ nrows out = nrows with_note
    ∧ rectangular out
    ∧ dom (columns out)
      = dom (columns with_note) ∪ {["_date"]} ∪ {["증감률"]} ∪ {["분기"]}.
Proof.
  split; [apply (bool_decide_unpack _); vm_compute; reflexivity|].
  split; [repeat split; eexists; vm_compute; reflexivity|].
  apply (@enriched_table_shape demo_lib with_note).
  - apply (bool_decide_unpack _). vm_compute. reflexivity.
  - repeat split; eexists; vm_compute; reflexivity.
Defined.

Lemma percent_change_is_never_null_witness :
  rectangular unparseable_fields ∧ has_required unparseable_fields ∧
  text_or_numbers unparseable_fields ∧
  ∃ out,
    call (@Dash0003.enrich_df demo_lib) unparseable_fields = Ok out
    ∧ call (@KurlyDash2.enrich_df demo_lib) unparseable_fields = Ok out
    ∧ ∀ j v,
        (cell out "증감률" j = Some v → ∃ y, v = VNum y ∧ is_number y)
        ∧ (cell out "분기" j = Some v → v = nan ∨ is_quarter v).
Proof.
  split; [apply (bool_decide_unpack _); vm_compute; reflexivity|].
  split; [repeat split; eexists; vm_compute; reflexivity|].
  split; [vm_compute; reflexivity|].
  apply (@percent_change_is_never_null demo_lib demo_laws
           unparseable_fields).
  - apply (bool_decide_unpack _). vm_compute. reflexivity.
  - repeat split; eexists; vm_compute; reflexivity.
  - vm_compute. reflexivity.
Defined.


Lemma other_columns_witness :
  rectangular with_note ∧ has_required with_note ∧
  ∃ out order,
    call (@Dash0003.enrich_df demo_lib) with_note = Ok out
    ∧ call (@KurlyDash2.enrich_df demo_lib) with_note = Ok out
    ∧ order ≡ₚ seq 0 (nrows with_note)
    ∧ ∀ j i, order !! j = Some i →
        cell out "월" j = @label_cell demo_lib with_note i
        ∧ ∀ c, c ∉ written → cell out c j = cell with_note c i.
Proof.
  split; [apply (bool_decide_unpack _); vm_compute; reflexivity|].
  split; [repeat split; eexists; vm_compute; reflexivity|].
  apply (@other_columns_follow_their_row demo_lib with_note).
  - apply (bool_decide_unpack _). vm_compute. reflexivity.
  - repeat split; eexists; vm_compute; reflexivity.
Defined.

Lemma infinite_revenue_witness :
  rectangular infinite_revenue ∧ has_required infinite_revenue ∧
  text_or_numbers infinite_revenue ∧
  (∃ i s, @num_cell demo_lib infinite_revenue "매출액" i = Inf s) ∧
  ∃ out e,
    call (@Dash0003.enrich_df demo_lib) infinite_revenue = Ok out
    ∧ call (@KurlyDash2.enrich_df demo_lib) infinite_revenue = Ok out
    ∧ (e = OverflowError ∨ e = ValueError)
    ∧ @Page0003.main demo_lib infinite_revenue = Traceback e
    ∧ @PageKurly.main demo_lib infinite_revenue = Traceback e.
Proof.
  split; [apply (bool_decide_unpack _); vm_compute; reflexivity|].
  split; [repeat split; eexists; vm_compute; reflexivity|].
  split; [vm_compute; reflexivity|].
  split; [by exists 1%nat, false|].
  apply (@infinite_revenue_stops_both_pages demo_lib demo_laws
           infinite_revenue).
  - apply (bool_decide_unpack _). vm_compute. reflexivity.
  - repeat split; eexists; vm_compute; reflexivity.
  - vm_compute. reflexivity.
  - exists 1%nat, false. vm_compute. reflexivity.
Defined.

Lemma bar_colours_witness :
  rectangular three_months ∧ has_required three_months ∧
  ∃ out ys,
    call (@Dash0003.enrich_df demo_lib) three_months = Ok out
    ∧ call (@KurlyDash2.enrich_df demo_lib) three_months = Ok out
    ∧ columns out !! "증감률" = Some (VNum <$> ys)
    ∧ length ys = nrows three_months
    ∧ Forall is_number ys
    ∧ Charts0003.colors out
      = Ok ((λ y, if f_ltb y f0 then "#610D7C" else "#5E0081") <$> ys)
    ∧ ChartsKurly.bar_colors out
      = Ok ((λ y, if f_ltb y f0 then "#8B57A0" else "#AA73C3") <$> ys).
Proof.
  split; [apply (bool_decide_unpack _); vm_compute; reflexivity|].
  split; [repeat split; eexists; vm_compute; reflexivity|].
  apply (@bar_colours_follow_sign demo_lib three_months).
  - apply (bool_decide_unpack _). vm_compute. reflexivity.
  - repeat split; eexists; vm_compute; reflexivity.
Defined.


Lemma preview_witness :
  rectangular with_note ∧ has_required with_note ∧
  ∃ out shown,
    call (@Dash0003.enrich_df demo_lib) with_note = Ok out
    ∧ call (@KurlyDash2.enrich_df demo_lib) with_note = Ok out
    ∧ preview out = Ok shown
    ∧ nrows shown = nrows with_note
    ∧ columns shown !! "_date" = None
    ∧ (∀ c, c ≠ "_date" → columns shown !! c = columns out !! c)
    ∧ dom (columns shown)
      = (dom (columns with_note) ∖ {["_date"]}) ∪ {["증감률"]} ∪ {["분기"]}.
Proof.
  split; [apply (bool_decide_unpack _); vm_compute; reflexivity|].
  split; [repeat split; eexists; vm_compute; reflexivity|].
  apply (@preview_drops_only_the_sort_key demo_lib with_note).
  - apply (bool_decide_unpack _). vm_compute. reflexivity.
  - repeat split; eexists; vm_compute; reflexivity.
Defined.

Lemma result_is_a_new_object_witness :
  [three_months] !! 0%nat = Some three_months
  ∧ rectangular three_months ∧ has_required three_months
  ∧ ∃ out,
      (∃ res h', @Dash0003.enrich_df demo_lib 0%nat [three_months]
                 = (Ok res, h')
               ∧ [three_months] !! res = None ∧ res ≠ 0%nat
               ∧ h' !! res = Some out)
      ∧ (∃ res h', @KurlyDash2.enrich_df demo_lib 0%nat [three_months]
                   = (Ok res, h')
                 ∧ [three_months] !! res = None ∧ res ≠ 0%nat
                 ∧ h' !! res = Some out).
Proof.
  split; [reflexivity|].
  split; [apply (bool_decide_unpack _); vm_compute; reflexivity|].
  split; [repeat split; eexists; vm_compute; reflexivity|].
  apply (@result_is_a_new_object demo_lib [three_months] 0%nat
           three_months).
  - reflexivity.
  - apply (bool_decide_unpack _). vm_compute. reflexivity.
  - repeat split; eexists; vm_compute; reflexivity.
Defined.
